(** * gh-ost: the migration context (go/base/context.go)

    A shallow embedding of [MigrationContext] and of the methods that
    configure it, followed by the properties of these methods.

    Conventions of the embedding.
    - An [int64] is a [Z]. The methods below only compare and store such
      values, they never add or multiply them, so no wrap-around occurs.
      A [float64] is a binary64 number in the representation of IEEE 754
      that [spec_float] gives, with its comparisons.
    - A Go [string] is a [string] of bytes.
    - An [error] result is [None] for Go's [nil] and [Some msg] for an error
      value carrying the message [msg].
    - A method with receiver [this *MigrationContext] that assigns to fields
      of [this] is a function from the context before the call to its result
      and the context after it (type [M A]); a method that only reads is a
      function of the context.
    - [*mysql.ConnectionConfig] is a pointer: the connection descriptors live
      in a store ([conn_store]) and the context holds their addresses, so
      that two fields holding the same pointer see each other's writes.
    - Every method body runs between [Lock] and the deferred [Unlock] of one
      of the context's mutexes, or performs a single atomic load or store.
      The embedding is that of the body run to completion by one caller. *)

From Stdlib Require Import ZArith QArith Lia Ascii String SpecFloat.
From stdpp Require Import base strings gmap pretty.

Local Open Scope string_scope.
Local Open Scope Z_scope.

(** ** Values shared by all methods *)

(** Go's [error] interface value. *)
Definition error : Type := option string.

(** What a caller can test with [if err != nil] on the results of a call.
    A method declared without results hands nothing to its caller. *)
Class Results (A : Type) := returned_error : A -> error.
#[export] Instance results_error : Results error := fun e => e.
#[export] Instance results_none : Results unit := fun _ => None.

(** Go's [float64], and the two constants [0.0] and [100.0] of context.go
    (100 is 7036874417766400 times 2 to the power -46). *)
Definition float64 : Type := spec_float.
Definition float64_0 : float64 := S754_zero false.
Definition float64_100 : float64 := S754_finite false 7036874417766400 (-46).

(** [fmt.Sprintf] and [fmt.Errorf] with the verbs used in context.go:
    [%s] splices a string, [%d] the decimal numeral of an integer. *)
Definition verb_d (n : Z) : string := pretty n.

(** ** Package time (Go standard library)

    A [Time] holds a wall-clock instant, the number of nanoseconds since the
    zero instant (January 1, year 1, 00:00:00 UTC), and it may hold a
    reading of the monotonic clock of the process, in nanoseconds. The
    values that [time.Now()] returns hold both (Go leaves the monotonic
    reading out only when the wall clock shows a year before 1885 or after
    2157); the zero [Time] holds none. A [Duration] is an [int64] count of
    nanoseconds.

    [IsZero] looks at the wall-clock instant alone. [Sub] subtracts the
    monotonic readings when both operands hold one, and the wall-clock
    instants otherwise; either difference saturates at the bounds of
    [int64]. *)
Module time.

Record Time : Type := mkTime {
  wall : Z;
  mono : option Z
}.

Definition Duration : Type := Z.

Definition zero : Time := {| wall := 0; mono := None |}.
Definition minDuration : Duration := - 2 ^ 63.
Definition maxDuration : Duration := 2 ^ 63 - 1.

Definition IsZero (t : Time) : bool := wall t =? 0.

Definition saturate (d : Z) : Duration :=
  if d <? minDuration then minDuration
  else if maxDuration <? d then maxDuration
  else d.

Definition Sub (t u : Time) : Duration :=
  match mono t, mono u with
  | Some te, Some ue => saturate (te - ue)
  | _, _ => saturate (wall t - wall u)
  end.

(** [u] is not after [t], on the clock that [Sub] compares them on: the
    monotonic clock when both hold a reading of it, the wall clock
    otherwise. *)
Definition not_after (u t : Time) : Prop :=
  match mono t, mono u with
  | Some te, Some ue => ue <= te
  | _, _ => wall u <= wall t
  end.

End time.

(** ** Package mysql (go/mysql) *)
Module mysql.

(** Modelled from the spec: the declaration of [mysql.InstanceKey] is not
    among the sources; the spec describes it as a database-instance
    identifier (host:port). *)
Record InstanceKey : Type := mkInstanceKey {
  Hostname : string;
  Port : Z
}.

(** Modelled from the spec: the declaration of [mysql.ConnectionConfig] is
    not among the sources. [User] and [Password] are the two fields that
    context.go assigns; [Key] is the instance the descriptor refers to. *)
Record ConnectionConfig : Type := mkConnectionConfig {
  Key : InstanceKey;
  User : string;
  Password : string
}.

Definition with_User (u : string) (c : ConnectionConfig) : ConnectionConfig :=
  {| Key := Key c; User := u; Password := Password c |}.

Definition with_Password (p : string) (c : ConnectionConfig) : ConnectionConfig :=
  {| Key := Key c; User := User c; Password := p |}.

(** [mysql.NewConnectionConfig()]: a descriptor with zero-valued fields. *)
Definition NewConnectionConfig : ConnectionConfig :=
  {| Key := {| Hostname := ""; Port := 0 |}; User := ""; Password := "" |}.

#[export] Instance InstanceKey_eq_dec : EqDecision InstanceKey.
Proof. solve_decision. Defined.

#[export] Instance InstanceKey_countable : Countable InstanceKey :=
  inj_countable' (fun k => (Hostname k, Port k))
    (fun p => {| Hostname := p.1; Port := p.2 |})
    (fun k => match k with mkInstanceKey _ _ => eq_refl end).

(** Modelled from the spec: the declaration of [mysql.InstanceKeyMap] and
    its methods are not among the sources; the spec describes it as a set
    of database-instance identifiers. [NewInstanceKeyMap()] is the empty
    set and [AddKey] puts a key into the set. *)
Definition InstanceKeyMap : Type := gset InstanceKey.

Definition NewInstanceKeyMap : InstanceKeyMap := ∅.

Definition AddKey (key : InstanceKey) (keys : InstanceKeyMap) : InstanceKeyMap :=
  {[key]} ∪ keys.

End mysql.

(** Addresses of connection descriptors; [None] is the [nil] pointer. *)
Definition loc : Type := positive.
Definition pointer : Type := option loc.
Abbreviation conn_store := (gmap loc mysql.ConnectionConfig).

(** ** The context *)

Inductive CutOver : Type := CutOverAtomic | CutOverTwoStep.

Record ClientConfig : Type := mkClientConfig {
  User : string;
  Password : string
}.

Record OscConfig : Type := mkOscConfig {
  Chunk_Size : Z;
  Max_Lag_Millis : Z;
  Replication_Lag_Query : string;
  Max_Load : string
}.

Record ContextConfig : Type := mkContextConfig {
  Client : ClientConfig;
  Osc : OscConfig
}.

Definition with_Client (c : ClientConfig) (cfg : ContextConfig) : ContextConfig :=
  {| Client := c; Osc := Osc cfg |}.

Definition zeroContextConfig : ContextConfig :=
  {| Client := {| User := ""; Password := "" |};
     Osc := {| Chunk_Size := 0; Max_Lag_Millis := 0;
               Replication_Lag_Query := ""; Max_Load := "" |} |}.

(** Modelled from the spec: the declaration of [LoadMap] (load_map.go) is not
    among the sources. The spec describes it as an ordered mapping of metric
    names to numeric thresholds, the order being that of the parsed list: a
    list of bindings with pairwise distinct names. A threshold is kept as
    the exact rational that its decimal numeral denotes. *)
Definition LoadMap : Type := list (string * Q).

(** [NewLoadMap()]: the empty map. *)
Definition NewLoadMap : LoadMap := [].

Record MigrationContext : Type := mkMigrationContext {
  DatabaseName : string;
  OriginalTableName : string;
  MigrateTableName : string;
  AlterStatement : string;

  config : ContextConfig;
  ConfigFile : string;
  CliUser : string;
  CliPassword : string;

  defaultNumRetries : Z;
  ChunkSize : Z;
  niceRatio : float64;
  MaxLagMillisecondsThrottleThreshold : Z;
  replicationLagQuery : string;
  throttleControlReplicaKeys : mysql.InstanceKeyMap;
  throttleQuery : string;
  maxLoad : LoadMap;
  criticalLoad : LoadMap;
  CutOverLockTimeoutSeconds : Z;

  Noop : bool;
  TestOnReplica : bool;
  Migrate : bool;
  MigrateOnReplica : bool;
  CutOverType : CutOver;

  OriginalBinlogFormat : string;
  InspectorConnectionConfig : pointer;
  ApplierConnectionConfig : pointer;
  RowCopyStartTime : time.Time;
  RowCopyEndTime : time.Time;
  pointOfInterestTime : time.Time;
  isThrottled : bool;
  throttleReason : string;
  Iteration : Z
}.

(** The state-passing type of a method that assigns to its receiver. *)
Definition M (A : Type) : Type := MigrationContext -> A * MigrationContext.

(** Assignments [this.f = v], one for each field that a method of the
    context or the command line assigns. *)
Definition set_OriginalTableName (v : string) (this : MigrationContext) : MigrationContext :=
  {| DatabaseName := DatabaseName this; OriginalTableName := v;
     MigrateTableName := MigrateTableName this; AlterStatement := AlterStatement this;
     config := config this; ConfigFile := ConfigFile this; CliUser := CliUser this;
     CliPassword := CliPassword this; defaultNumRetries := defaultNumRetries this;
     ChunkSize := ChunkSize this; niceRatio := niceRatio this;
     MaxLagMillisecondsThrottleThreshold := MaxLagMillisecondsThrottleThreshold this;
     replicationLagQuery := replicationLagQuery this;
     throttleControlReplicaKeys := throttleControlReplicaKeys this;
     throttleQuery := throttleQuery this; maxLoad := maxLoad this;
     criticalLoad := criticalLoad this;
     CutOverLockTimeoutSeconds := CutOverLockTimeoutSeconds this; Noop := Noop this;
     TestOnReplica := TestOnReplica this; Migrate := Migrate this;
     MigrateOnReplica := MigrateOnReplica this; CutOverType := CutOverType this;
     OriginalBinlogFormat := OriginalBinlogFormat this;
     InspectorConnectionConfig := InspectorConnectionConfig this;
     ApplierConnectionConfig := ApplierConnectionConfig this;
     RowCopyStartTime := RowCopyStartTime this; RowCopyEndTime := RowCopyEndTime this;
     pointOfInterestTime := pointOfInterestTime this; isThrottled := isThrottled this;
     throttleReason := throttleReason this; Iteration := Iteration this |}.

Definition set_MigrateTableName (v : string) (this : MigrationContext) : MigrationContext :=
  {| DatabaseName := DatabaseName this; OriginalTableName := OriginalTableName this;
     MigrateTableName := v; AlterStatement := AlterStatement this; config := config this;
     ConfigFile := ConfigFile this; CliUser := CliUser this;
     CliPassword := CliPassword this; defaultNumRetries := defaultNumRetries this;
     ChunkSize := ChunkSize this; niceRatio := niceRatio this;
     MaxLagMillisecondsThrottleThreshold := MaxLagMillisecondsThrottleThreshold this;
     replicationLagQuery := replicationLagQuery this;
     throttleControlReplicaKeys := throttleControlReplicaKeys this;
     throttleQuery := throttleQuery this; maxLoad := maxLoad this;
     criticalLoad := criticalLoad this;
     CutOverLockTimeoutSeconds := CutOverLockTimeoutSeconds this; Noop := Noop this;
     TestOnReplica := TestOnReplica this; Migrate := Migrate this;
     MigrateOnReplica := MigrateOnReplica this; CutOverType := CutOverType this;
     OriginalBinlogFormat := OriginalBinlogFormat this;
     InspectorConnectionConfig := InspectorConnectionConfig this;
     ApplierConnectionConfig := ApplierConnectionConfig this;
     RowCopyStartTime := RowCopyStartTime this; RowCopyEndTime := RowCopyEndTime this;
     pointOfInterestTime := pointOfInterestTime this; isThrottled := isThrottled this;
     throttleReason := throttleReason this; Iteration := Iteration this |}.

Definition set_config (v : ContextConfig) (this : MigrationContext) : MigrationContext :=
  {| DatabaseName := DatabaseName this; OriginalTableName := OriginalTableName this;
     MigrateTableName := MigrateTableName this; AlterStatement := AlterStatement this;
     config := v; ConfigFile := ConfigFile this; CliUser := CliUser this;
     CliPassword := CliPassword this; defaultNumRetries := defaultNumRetries this;
     ChunkSize := ChunkSize this; niceRatio := niceRatio this;
     MaxLagMillisecondsThrottleThreshold := MaxLagMillisecondsThrottleThreshold this;
     replicationLagQuery := replicationLagQuery this;
     throttleControlReplicaKeys := throttleControlReplicaKeys this;
     throttleQuery := throttleQuery this; maxLoad := maxLoad this;
     criticalLoad := criticalLoad this;
     CutOverLockTimeoutSeconds := CutOverLockTimeoutSeconds this; Noop := Noop this;
     TestOnReplica := TestOnReplica this; Migrate := Migrate this;
     MigrateOnReplica := MigrateOnReplica this; CutOverType := CutOverType this;
     OriginalBinlogFormat := OriginalBinlogFormat this;
     InspectorConnectionConfig := InspectorConnectionConfig this;
     ApplierConnectionConfig := ApplierConnectionConfig this;
     RowCopyStartTime := RowCopyStartTime this; RowCopyEndTime := RowCopyEndTime this;
     pointOfInterestTime := pointOfInterestTime this; isThrottled := isThrottled this;
     throttleReason := throttleReason this; Iteration := Iteration this |}.

Definition set_ConfigFile (v : string) (this : MigrationContext) : MigrationContext :=
  {| DatabaseName := DatabaseName this; OriginalTableName := OriginalTableName this;
     MigrateTableName := MigrateTableName this; AlterStatement := AlterStatement this;
     config := config this; ConfigFile := v; CliUser := CliUser this;
     CliPassword := CliPassword this; defaultNumRetries := defaultNumRetries this;
     ChunkSize := ChunkSize this; niceRatio := niceRatio this;
     MaxLagMillisecondsThrottleThreshold := MaxLagMillisecondsThrottleThreshold this;
     replicationLagQuery := replicationLagQuery this;
     throttleControlReplicaKeys := throttleControlReplicaKeys this;
     throttleQuery := throttleQuery this; maxLoad := maxLoad this;
     criticalLoad := criticalLoad this;
     CutOverLockTimeoutSeconds := CutOverLockTimeoutSeconds this; Noop := Noop this;
     TestOnReplica := TestOnReplica this; Migrate := Migrate this;
     MigrateOnReplica := MigrateOnReplica this; CutOverType := CutOverType this;
     OriginalBinlogFormat := OriginalBinlogFormat this;
     InspectorConnectionConfig := InspectorConnectionConfig this;
     ApplierConnectionConfig := ApplierConnectionConfig this;
     RowCopyStartTime := RowCopyStartTime this; RowCopyEndTime := RowCopyEndTime this;
     pointOfInterestTime := pointOfInterestTime this; isThrottled := isThrottled this;
     throttleReason := throttleReason this; Iteration := Iteration this |}.

Definition set_CliUser (v : string) (this : MigrationContext) : MigrationContext :=
  {| DatabaseName := DatabaseName this; OriginalTableName := OriginalTableName this;
     MigrateTableName := MigrateTableName this; AlterStatement := AlterStatement this;
     config := config this; ConfigFile := ConfigFile this; CliUser := v;
     CliPassword := CliPassword this; defaultNumRetries := defaultNumRetries this;
     ChunkSize := ChunkSize this; niceRatio := niceRatio this;
     MaxLagMillisecondsThrottleThreshold := MaxLagMillisecondsThrottleThreshold this;
     replicationLagQuery := replicationLagQuery this;
     throttleControlReplicaKeys := throttleControlReplicaKeys this;
     throttleQuery := throttleQuery this; maxLoad := maxLoad this;
     criticalLoad := criticalLoad this;
     CutOverLockTimeoutSeconds := CutOverLockTimeoutSeconds this; Noop := Noop this;
     TestOnReplica := TestOnReplica this; Migrate := Migrate this;
     MigrateOnReplica := MigrateOnReplica this; CutOverType := CutOverType this;
     OriginalBinlogFormat := OriginalBinlogFormat this;
     InspectorConnectionConfig := InspectorConnectionConfig this;
     ApplierConnectionConfig := ApplierConnectionConfig this;
     RowCopyStartTime := RowCopyStartTime this; RowCopyEndTime := RowCopyEndTime this;
     pointOfInterestTime := pointOfInterestTime this; isThrottled := isThrottled this;
     throttleReason := throttleReason this; Iteration := Iteration this |}.

Definition set_CliPassword (v : string) (this : MigrationContext) : MigrationContext :=
  {| DatabaseName := DatabaseName this; OriginalTableName := OriginalTableName this;
     MigrateTableName := MigrateTableName this; AlterStatement := AlterStatement this;
     config := config this; ConfigFile := ConfigFile this; CliUser := CliUser this;
     CliPassword := v; defaultNumRetries := defaultNumRetries this;
     ChunkSize := ChunkSize this; niceRatio := niceRatio this;
     MaxLagMillisecondsThrottleThreshold := MaxLagMillisecondsThrottleThreshold this;
     replicationLagQuery := replicationLagQuery this;
     throttleControlReplicaKeys := throttleControlReplicaKeys this;
     throttleQuery := throttleQuery this; maxLoad := maxLoad this;
     criticalLoad := criticalLoad this;
     CutOverLockTimeoutSeconds := CutOverLockTimeoutSeconds this; Noop := Noop this;
     TestOnReplica := TestOnReplica this; Migrate := Migrate this;
     MigrateOnReplica := MigrateOnReplica this; CutOverType := CutOverType this;
     OriginalBinlogFormat := OriginalBinlogFormat this;
     InspectorConnectionConfig := InspectorConnectionConfig this;
     ApplierConnectionConfig := ApplierConnectionConfig this;
     RowCopyStartTime := RowCopyStartTime this; RowCopyEndTime := RowCopyEndTime this;
     pointOfInterestTime := pointOfInterestTime this; isThrottled := isThrottled this;
     throttleReason := throttleReason this; Iteration := Iteration this |}.

Definition set_defaultNumRetries (v : Z) (this : MigrationContext) : MigrationContext :=
  {| DatabaseName := DatabaseName this; OriginalTableName := OriginalTableName this;
     MigrateTableName := MigrateTableName this; AlterStatement := AlterStatement this;
     config := config this; ConfigFile := ConfigFile this; CliUser := CliUser this;
     CliPassword := CliPassword this; defaultNumRetries := v; ChunkSize := ChunkSize this;
     niceRatio := niceRatio this;
     MaxLagMillisecondsThrottleThreshold := MaxLagMillisecondsThrottleThreshold this;
     replicationLagQuery := replicationLagQuery this;
     throttleControlReplicaKeys := throttleControlReplicaKeys this;
     throttleQuery := throttleQuery this; maxLoad := maxLoad this;
     criticalLoad := criticalLoad this;
     CutOverLockTimeoutSeconds := CutOverLockTimeoutSeconds this; Noop := Noop this;
     TestOnReplica := TestOnReplica this; Migrate := Migrate this;
     MigrateOnReplica := MigrateOnReplica this; CutOverType := CutOverType this;
     OriginalBinlogFormat := OriginalBinlogFormat this;
     InspectorConnectionConfig := InspectorConnectionConfig this;
     ApplierConnectionConfig := ApplierConnectionConfig this;
     RowCopyStartTime := RowCopyStartTime this; RowCopyEndTime := RowCopyEndTime this;
     pointOfInterestTime := pointOfInterestTime this; isThrottled := isThrottled this;
     throttleReason := throttleReason this; Iteration := Iteration this |}.

Definition set_ChunkSize (v : Z) (this : MigrationContext) : MigrationContext :=
  {| DatabaseName := DatabaseName this; OriginalTableName := OriginalTableName this;
     MigrateTableName := MigrateTableName this; AlterStatement := AlterStatement this;
     config := config this; ConfigFile := ConfigFile this; CliUser := CliUser this;
     CliPassword := CliPassword this; defaultNumRetries := defaultNumRetries this;
     ChunkSize := v; niceRatio := niceRatio this;
     MaxLagMillisecondsThrottleThreshold := MaxLagMillisecondsThrottleThreshold this;
     replicationLagQuery := replicationLagQuery this;
     throttleControlReplicaKeys := throttleControlReplicaKeys this;
     throttleQuery := throttleQuery this; maxLoad := maxLoad this;
     criticalLoad := criticalLoad this;
     CutOverLockTimeoutSeconds := CutOverLockTimeoutSeconds this; Noop := Noop this;
     TestOnReplica := TestOnReplica this; Migrate := Migrate this;
     MigrateOnReplica := MigrateOnReplica this; CutOverType := CutOverType this;
     OriginalBinlogFormat := OriginalBinlogFormat this;
     InspectorConnectionConfig := InspectorConnectionConfig this;
     ApplierConnectionConfig := ApplierConnectionConfig this;
     RowCopyStartTime := RowCopyStartTime this; RowCopyEndTime := RowCopyEndTime this;
     pointOfInterestTime := pointOfInterestTime this; isThrottled := isThrottled this;
     throttleReason := throttleReason this; Iteration := Iteration this |}.

Definition set_MaxLagMillisecondsThrottleThreshold (v : Z) (this : MigrationContext) : MigrationContext :=
  {| DatabaseName := DatabaseName this; OriginalTableName := OriginalTableName this;
     MigrateTableName := MigrateTableName this; AlterStatement := AlterStatement this;
     config := config this; ConfigFile := ConfigFile this; CliUser := CliUser this;
     CliPassword := CliPassword this; defaultNumRetries := defaultNumRetries this;
     ChunkSize := ChunkSize this; niceRatio := niceRatio this;
     MaxLagMillisecondsThrottleThreshold := v;
     replicationLagQuery := replicationLagQuery this;
     throttleControlReplicaKeys := throttleControlReplicaKeys this;
     throttleQuery := throttleQuery this; maxLoad := maxLoad this;
     criticalLoad := criticalLoad this;
     CutOverLockTimeoutSeconds := CutOverLockTimeoutSeconds this; Noop := Noop this;
     TestOnReplica := TestOnReplica this; Migrate := Migrate this;
     MigrateOnReplica := MigrateOnReplica this; CutOverType := CutOverType this;
     OriginalBinlogFormat := OriginalBinlogFormat this;
     InspectorConnectionConfig := InspectorConnectionConfig this;
     ApplierConnectionConfig := ApplierConnectionConfig this;
     RowCopyStartTime := RowCopyStartTime this; RowCopyEndTime := RowCopyEndTime this;
     pointOfInterestTime := pointOfInterestTime this; isThrottled := isThrottled this;
     throttleReason := throttleReason this; Iteration := Iteration this |}.

Definition set_maxLoad (v : LoadMap) (this : MigrationContext) : MigrationContext :=
  {| DatabaseName := DatabaseName this; OriginalTableName := OriginalTableName this;
     MigrateTableName := MigrateTableName this; AlterStatement := AlterStatement this;
     config := config this; ConfigFile := ConfigFile this; CliUser := CliUser this;
     CliPassword := CliPassword this; defaultNumRetries := defaultNumRetries this;
     ChunkSize := ChunkSize this; niceRatio := niceRatio this;
     MaxLagMillisecondsThrottleThreshold := MaxLagMillisecondsThrottleThreshold this;
     replicationLagQuery := replicationLagQuery this;
     throttleControlReplicaKeys := throttleControlReplicaKeys this;
     throttleQuery := throttleQuery this; maxLoad := v; criticalLoad := criticalLoad this;
     CutOverLockTimeoutSeconds := CutOverLockTimeoutSeconds this; Noop := Noop this;
     TestOnReplica := TestOnReplica this; Migrate := Migrate this;
     MigrateOnReplica := MigrateOnReplica this; CutOverType := CutOverType this;
     OriginalBinlogFormat := OriginalBinlogFormat this;
     InspectorConnectionConfig := InspectorConnectionConfig this;
     ApplierConnectionConfig := ApplierConnectionConfig this;
     RowCopyStartTime := RowCopyStartTime this; RowCopyEndTime := RowCopyEndTime this;
     pointOfInterestTime := pointOfInterestTime this; isThrottled := isThrottled this;
     throttleReason := throttleReason this; Iteration := Iteration this |}.

Definition set_criticalLoad (v : LoadMap) (this : MigrationContext) : MigrationContext :=
  {| DatabaseName := DatabaseName this; OriginalTableName := OriginalTableName this;
     MigrateTableName := MigrateTableName this; AlterStatement := AlterStatement this;
     config := config this; ConfigFile := ConfigFile this; CliUser := CliUser this;
     CliPassword := CliPassword this; defaultNumRetries := defaultNumRetries this;
     ChunkSize := ChunkSize this; niceRatio := niceRatio this;
     MaxLagMillisecondsThrottleThreshold := MaxLagMillisecondsThrottleThreshold this;
     replicationLagQuery := replicationLagQuery this;
     throttleControlReplicaKeys := throttleControlReplicaKeys this;
     throttleQuery := throttleQuery this; maxLoad := maxLoad this; criticalLoad := v;
     CutOverLockTimeoutSeconds := CutOverLockTimeoutSeconds this; Noop := Noop this;
     TestOnReplica := TestOnReplica this; Migrate := Migrate this;
     MigrateOnReplica := MigrateOnReplica this; CutOverType := CutOverType this;
     OriginalBinlogFormat := OriginalBinlogFormat this;
     InspectorConnectionConfig := InspectorConnectionConfig this;
     ApplierConnectionConfig := ApplierConnectionConfig this;
     RowCopyStartTime := RowCopyStartTime this; RowCopyEndTime := RowCopyEndTime this;
     pointOfInterestTime := pointOfInterestTime this; isThrottled := isThrottled this;
     throttleReason := throttleReason this; Iteration := Iteration this |}.

Definition set_CutOverLockTimeoutSeconds (v : Z) (this : MigrationContext) : MigrationContext :=
  {| DatabaseName := DatabaseName this; OriginalTableName := OriginalTableName this;
     MigrateTableName := MigrateTableName this; AlterStatement := AlterStatement this;
     config := config this; ConfigFile := ConfigFile this; CliUser := CliUser this;
     CliPassword := CliPassword this; defaultNumRetries := defaultNumRetries this;
     ChunkSize := ChunkSize this; niceRatio := niceRatio this;
     MaxLagMillisecondsThrottleThreshold := MaxLagMillisecondsThrottleThreshold this;
     replicationLagQuery := replicationLagQuery this;
     throttleControlReplicaKeys := throttleControlReplicaKeys this;
     throttleQuery := throttleQuery this; maxLoad := maxLoad this;
     criticalLoad := criticalLoad this; CutOverLockTimeoutSeconds := v; Noop := Noop this;
     TestOnReplica := TestOnReplica this; Migrate := Migrate this;
     MigrateOnReplica := MigrateOnReplica this; CutOverType := CutOverType this;
     OriginalBinlogFormat := OriginalBinlogFormat this;
     InspectorConnectionConfig := InspectorConnectionConfig this;
     ApplierConnectionConfig := ApplierConnectionConfig this;
     RowCopyStartTime := RowCopyStartTime this; RowCopyEndTime := RowCopyEndTime this;
     pointOfInterestTime := pointOfInterestTime this; isThrottled := isThrottled this;
     throttleReason := throttleReason this; Iteration := Iteration this |}.

Definition set_TestOnReplica (v : bool) (this : MigrationContext) : MigrationContext :=
  {| DatabaseName := DatabaseName this; OriginalTableName := OriginalTableName this;
     MigrateTableName := MigrateTableName this; AlterStatement := AlterStatement this;
     config := config this; ConfigFile := ConfigFile this; CliUser := CliUser this;
     CliPassword := CliPassword this; defaultNumRetries := defaultNumRetries this;
     ChunkSize := ChunkSize this; niceRatio := niceRatio this;
     MaxLagMillisecondsThrottleThreshold := MaxLagMillisecondsThrottleThreshold this;
     replicationLagQuery := replicationLagQuery this;
     throttleControlReplicaKeys := throttleControlReplicaKeys this;
     throttleQuery := throttleQuery this; maxLoad := maxLoad this;
     criticalLoad := criticalLoad this;
     CutOverLockTimeoutSeconds := CutOverLockTimeoutSeconds this; Noop := Noop this;
     TestOnReplica := v; Migrate := Migrate this; MigrateOnReplica := MigrateOnReplica this;
     CutOverType := CutOverType this; OriginalBinlogFormat := OriginalBinlogFormat this;
     InspectorConnectionConfig := InspectorConnectionConfig this;
     ApplierConnectionConfig := ApplierConnectionConfig this;
     RowCopyStartTime := RowCopyStartTime this; RowCopyEndTime := RowCopyEndTime this;
     pointOfInterestTime := pointOfInterestTime this; isThrottled := isThrottled this;
     throttleReason := throttleReason this; Iteration := Iteration this |}.

Definition set_Migrate (v : bool) (this : MigrationContext) : MigrationContext :=
  {| DatabaseName := DatabaseName this; OriginalTableName := OriginalTableName this;
     MigrateTableName := MigrateTableName this; AlterStatement := AlterStatement this;
     config := config this; ConfigFile := ConfigFile this; CliUser := CliUser this;
     CliPassword := CliPassword this; defaultNumRetries := defaultNumRetries this;
     ChunkSize := ChunkSize this; niceRatio := niceRatio this;
     MaxLagMillisecondsThrottleThreshold := MaxLagMillisecondsThrottleThreshold this;
     replicationLagQuery := replicationLagQuery this;
     throttleControlReplicaKeys := throttleControlReplicaKeys this;
     throttleQuery := throttleQuery this; maxLoad := maxLoad this;
     criticalLoad := criticalLoad this;
     CutOverLockTimeoutSeconds := CutOverLockTimeoutSeconds this; Noop := Noop this;
     TestOnReplica := TestOnReplica this; Migrate := v;
     MigrateOnReplica := MigrateOnReplica this; CutOverType := CutOverType this;
     OriginalBinlogFormat := OriginalBinlogFormat this;
     InspectorConnectionConfig := InspectorConnectionConfig this;
     ApplierConnectionConfig := ApplierConnectionConfig this;
     RowCopyStartTime := RowCopyStartTime this; RowCopyEndTime := RowCopyEndTime this;
     pointOfInterestTime := pointOfInterestTime this; isThrottled := isThrottled this;
     throttleReason := throttleReason this; Iteration := Iteration this |}.

Definition set_MigrateOnReplica (v : bool) (this : MigrationContext) : MigrationContext :=
  {| DatabaseName := DatabaseName this; OriginalTableName := OriginalTableName this;
     MigrateTableName := MigrateTableName this; AlterStatement := AlterStatement this;
     config := config this; ConfigFile := ConfigFile this; CliUser := CliUser this;
     CliPassword := CliPassword this; defaultNumRetries := defaultNumRetries this;
     ChunkSize := ChunkSize this; niceRatio := niceRatio this;
     MaxLagMillisecondsThrottleThreshold := MaxLagMillisecondsThrottleThreshold this;
     replicationLagQuery := replicationLagQuery this;
     throttleControlReplicaKeys := throttleControlReplicaKeys this;
     throttleQuery := throttleQuery this; maxLoad := maxLoad this;
     criticalLoad := criticalLoad this;
     CutOverLockTimeoutSeconds := CutOverLockTimeoutSeconds this; Noop := Noop this;
     TestOnReplica := TestOnReplica this; Migrate := Migrate this; MigrateOnReplica := v;
     CutOverType := CutOverType this; OriginalBinlogFormat := OriginalBinlogFormat this;
     InspectorConnectionConfig := InspectorConnectionConfig this;
     ApplierConnectionConfig := ApplierConnectionConfig this;
     RowCopyStartTime := RowCopyStartTime this; RowCopyEndTime := RowCopyEndTime this;
     pointOfInterestTime := pointOfInterestTime this; isThrottled := isThrottled this;
     throttleReason := throttleReason this; Iteration := Iteration this |}.

Definition set_RowCopyStartTime (v : time.Time) (this : MigrationContext) : MigrationContext :=
  {| DatabaseName := DatabaseName this; OriginalTableName := OriginalTableName this;
     MigrateTableName := MigrateTableName this; AlterStatement := AlterStatement this;
     config := config this; ConfigFile := ConfigFile this; CliUser := CliUser this;
     CliPassword := CliPassword this; defaultNumRetries := defaultNumRetries this;
     ChunkSize := ChunkSize this; niceRatio := niceRatio this;
     MaxLagMillisecondsThrottleThreshold := MaxLagMillisecondsThrottleThreshold this;
     replicationLagQuery := replicationLagQuery this;
     throttleControlReplicaKeys := throttleControlReplicaKeys this;
     throttleQuery := throttleQuery this; maxLoad := maxLoad this;
     criticalLoad := criticalLoad this;
     CutOverLockTimeoutSeconds := CutOverLockTimeoutSeconds this; Noop := Noop this;
     TestOnReplica := TestOnReplica this; Migrate := Migrate this;
     MigrateOnReplica := MigrateOnReplica this; CutOverType := CutOverType this;
     OriginalBinlogFormat := OriginalBinlogFormat this;
     InspectorConnectionConfig := InspectorConnectionConfig this;
     ApplierConnectionConfig := ApplierConnectionConfig this; RowCopyStartTime := v;
     RowCopyEndTime := RowCopyEndTime this; pointOfInterestTime := pointOfInterestTime this;
     isThrottled := isThrottled this; throttleReason := throttleReason this;
     Iteration := Iteration this |}.

Definition set_RowCopyEndTime (v : time.Time) (this : MigrationContext) : MigrationContext :=
  {| DatabaseName := DatabaseName this; OriginalTableName := OriginalTableName this;
     MigrateTableName := MigrateTableName this; AlterStatement := AlterStatement this;
     config := config this; ConfigFile := ConfigFile this; CliUser := CliUser this;
     CliPassword := CliPassword this; defaultNumRetries := defaultNumRetries this;
     ChunkSize := ChunkSize this; niceRatio := niceRatio this;
     MaxLagMillisecondsThrottleThreshold := MaxLagMillisecondsThrottleThreshold this;
     replicationLagQuery := replicationLagQuery this;
     throttleControlReplicaKeys := throttleControlReplicaKeys this;
     throttleQuery := throttleQuery this; maxLoad := maxLoad this;
     criticalLoad := criticalLoad this;
     CutOverLockTimeoutSeconds := CutOverLockTimeoutSeconds this; Noop := Noop this;
     TestOnReplica := TestOnReplica this; Migrate := Migrate this;
     MigrateOnReplica := MigrateOnReplica this; CutOverType := CutOverType this;
     OriginalBinlogFormat := OriginalBinlogFormat this;
     InspectorConnectionConfig := InspectorConnectionConfig this;
     ApplierConnectionConfig := ApplierConnectionConfig this;
     RowCopyStartTime := RowCopyStartTime this; RowCopyEndTime := v;
     pointOfInterestTime := pointOfInterestTime this; isThrottled := isThrottled this;
     throttleReason := throttleReason this; Iteration := Iteration this |}.

Definition set_throttle (b : bool) (reason : string) (this : MigrationContext)
  : MigrationContext :=
  {| DatabaseName := DatabaseName this; OriginalTableName := OriginalTableName this;
     MigrateTableName := MigrateTableName this; AlterStatement := AlterStatement this;
     config := config this; ConfigFile := ConfigFile this; CliUser := CliUser this;
     CliPassword := CliPassword this; defaultNumRetries := defaultNumRetries this;
     ChunkSize := ChunkSize this; niceRatio := niceRatio this;
     MaxLagMillisecondsThrottleThreshold := MaxLagMillisecondsThrottleThreshold this;
     replicationLagQuery := replicationLagQuery this;
     throttleControlReplicaKeys := throttleControlReplicaKeys this;
     throttleQuery := throttleQuery this; maxLoad := maxLoad this;
     criticalLoad := criticalLoad this;
     CutOverLockTimeoutSeconds := CutOverLockTimeoutSeconds this; Noop := Noop this;
     TestOnReplica := TestOnReplica this; Migrate := Migrate this;
     MigrateOnReplica := MigrateOnReplica this; CutOverType := CutOverType this;
     OriginalBinlogFormat := OriginalBinlogFormat this;
     InspectorConnectionConfig := InspectorConnectionConfig this;
     ApplierConnectionConfig := ApplierConnectionConfig this;
     RowCopyStartTime := RowCopyStartTime this; RowCopyEndTime := RowCopyEndTime this;
     pointOfInterestTime := pointOfInterestTime this; isThrottled := b;
     throttleReason := reason; Iteration := Iteration this |}.

Definition set_niceRatio (v : float64) (this : MigrationContext) : MigrationContext :=
  {| DatabaseName := DatabaseName this; OriginalTableName := OriginalTableName this;
     MigrateTableName := MigrateTableName this; AlterStatement := AlterStatement this;
     config := config this; ConfigFile := ConfigFile this; CliUser := CliUser this;
     CliPassword := CliPassword this; defaultNumRetries := defaultNumRetries this;
     ChunkSize := ChunkSize this; niceRatio := v;
     MaxLagMillisecondsThrottleThreshold := MaxLagMillisecondsThrottleThreshold this;
     replicationLagQuery := replicationLagQuery this;
     throttleControlReplicaKeys := throttleControlReplicaKeys this;
     throttleQuery := throttleQuery this; maxLoad := maxLoad this;
     criticalLoad := criticalLoad this;
     CutOverLockTimeoutSeconds := CutOverLockTimeoutSeconds this; Noop := Noop this;
     TestOnReplica := TestOnReplica this; Migrate := Migrate this;
     MigrateOnReplica := MigrateOnReplica this; CutOverType := CutOverType this;
     OriginalBinlogFormat := OriginalBinlogFormat this;
     InspectorConnectionConfig := InspectorConnectionConfig this;
     ApplierConnectionConfig := ApplierConnectionConfig this;
     RowCopyStartTime := RowCopyStartTime this; RowCopyEndTime := RowCopyEndTime this;
     pointOfInterestTime := pointOfInterestTime this; isThrottled := isThrottled this;
     throttleReason := throttleReason this; Iteration := Iteration this |}.

Definition set_replicationLagQuery (v : string) (this : MigrationContext) : MigrationContext :=
  {| DatabaseName := DatabaseName this; OriginalTableName := OriginalTableName this;
     MigrateTableName := MigrateTableName this; AlterStatement := AlterStatement this;
     config := config this; ConfigFile := ConfigFile this; CliUser := CliUser this;
     CliPassword := CliPassword this; defaultNumRetries := defaultNumRetries this;
     ChunkSize := ChunkSize this; niceRatio := niceRatio this;
     MaxLagMillisecondsThrottleThreshold := MaxLagMillisecondsThrottleThreshold this;
     replicationLagQuery := v;
     throttleControlReplicaKeys := throttleControlReplicaKeys this;
     throttleQuery := throttleQuery this; maxLoad := maxLoad this;
     criticalLoad := criticalLoad this;
     CutOverLockTimeoutSeconds := CutOverLockTimeoutSeconds this; Noop := Noop this;
     TestOnReplica := TestOnReplica this; Migrate := Migrate this;
     MigrateOnReplica := MigrateOnReplica this; CutOverType := CutOverType this;
     OriginalBinlogFormat := OriginalBinlogFormat this;
     InspectorConnectionConfig := InspectorConnectionConfig this;
     ApplierConnectionConfig := ApplierConnectionConfig this;
     RowCopyStartTime := RowCopyStartTime this; RowCopyEndTime := RowCopyEndTime this;
     pointOfInterestTime := pointOfInterestTime this; isThrottled := isThrottled this;
     throttleReason := throttleReason this; Iteration := Iteration this |}.

Definition set_throttleControlReplicaKeys (v : mysql.InstanceKeyMap) (this : MigrationContext) : MigrationContext :=
  {| DatabaseName := DatabaseName this; OriginalTableName := OriginalTableName this;
     MigrateTableName := MigrateTableName this; AlterStatement := AlterStatement this;
     config := config this; ConfigFile := ConfigFile this; CliUser := CliUser this;
     CliPassword := CliPassword this; defaultNumRetries := defaultNumRetries this;
     ChunkSize := ChunkSize this; niceRatio := niceRatio this;
     MaxLagMillisecondsThrottleThreshold := MaxLagMillisecondsThrottleThreshold this;
     replicationLagQuery := replicationLagQuery this; throttleControlReplicaKeys := v;
     throttleQuery := throttleQuery this; maxLoad := maxLoad this;
     criticalLoad := criticalLoad this;
     CutOverLockTimeoutSeconds := CutOverLockTimeoutSeconds this; Noop := Noop this;
     TestOnReplica := TestOnReplica this; Migrate := Migrate this;
     MigrateOnReplica := MigrateOnReplica this; CutOverType := CutOverType this;
     OriginalBinlogFormat := OriginalBinlogFormat this;
     InspectorConnectionConfig := InspectorConnectionConfig this;
     ApplierConnectionConfig := ApplierConnectionConfig this;
     RowCopyStartTime := RowCopyStartTime this; RowCopyEndTime := RowCopyEndTime this;
     pointOfInterestTime := pointOfInterestTime this; isThrottled := isThrottled this;
     throttleReason := throttleReason this; Iteration := Iteration this |}.

Definition set_throttleQuery (v : string) (this : MigrationContext) : MigrationContext :=
  {| DatabaseName := DatabaseName this; OriginalTableName := OriginalTableName this;
     MigrateTableName := MigrateTableName this; AlterStatement := AlterStatement this;
     config := config this; ConfigFile := ConfigFile this; CliUser := CliUser this;
     CliPassword := CliPassword this; defaultNumRetries := defaultNumRetries this;
     ChunkSize := ChunkSize this; niceRatio := niceRatio this;
     MaxLagMillisecondsThrottleThreshold := MaxLagMillisecondsThrottleThreshold this;
     replicationLagQuery := replicationLagQuery this;
     throttleControlReplicaKeys := throttleControlReplicaKeys this; throttleQuery := v;
     maxLoad := maxLoad this; criticalLoad := criticalLoad this;
     CutOverLockTimeoutSeconds := CutOverLockTimeoutSeconds this; Noop := Noop this;
     TestOnReplica := TestOnReplica this; Migrate := Migrate this;
     MigrateOnReplica := MigrateOnReplica this; CutOverType := CutOverType this;
     OriginalBinlogFormat := OriginalBinlogFormat this;
     InspectorConnectionConfig := InspectorConnectionConfig this;
     ApplierConnectionConfig := ApplierConnectionConfig this;
     RowCopyStartTime := RowCopyStartTime this; RowCopyEndTime := RowCopyEndTime this;
     pointOfInterestTime := pointOfInterestTime this; isThrottled := isThrottled this;
     throttleReason := throttleReason this; Iteration := Iteration this |}.

Definition set_pointOfInterestTime (v : time.Time) (this : MigrationContext) : MigrationContext :=
  {| DatabaseName := DatabaseName this; OriginalTableName := OriginalTableName this;
     MigrateTableName := MigrateTableName this; AlterStatement := AlterStatement this;
     config := config this; ConfigFile := ConfigFile this; CliUser := CliUser this;
     CliPassword := CliPassword this; defaultNumRetries := defaultNumRetries this;
     ChunkSize := ChunkSize this; niceRatio := niceRatio this;
     MaxLagMillisecondsThrottleThreshold := MaxLagMillisecondsThrottleThreshold this;
     replicationLagQuery := replicationLagQuery this;
     throttleControlReplicaKeys := throttleControlReplicaKeys this;
     throttleQuery := throttleQuery this; maxLoad := maxLoad this;
     criticalLoad := criticalLoad this;
     CutOverLockTimeoutSeconds := CutOverLockTimeoutSeconds this; Noop := Noop this;
     TestOnReplica := TestOnReplica this; Migrate := Migrate this;
     MigrateOnReplica := MigrateOnReplica this; CutOverType := CutOverType this;
     OriginalBinlogFormat := OriginalBinlogFormat this;
     InspectorConnectionConfig := InspectorConnectionConfig this;
     ApplierConnectionConfig := ApplierConnectionConfig this;
     RowCopyStartTime := RowCopyStartTime this; RowCopyEndTime := RowCopyEndTime this;
     pointOfInterestTime := v; isThrottled := isThrottled this;
     throttleReason := throttleReason this; Iteration := Iteration this |}.

(** Allocation of a connection descriptor at an address not yet in use. *)
Definition alloc (c : mysql.ConnectionConfig) (σ : conn_store) : loc * conn_store :=
  let p := fresh (dom σ) in (p, <[p := c]> σ).

(** [newMigrationContext()]: the defaults, the empty load maps and set of
    replica keys, and the two descriptors that [mysql.NewConnectionConfig()]
    allocates. All other fields have the zero value of their type. The
    three mutexes are allocated here too and no method assigns them again. *)
Definition newMigrationContext (σ : conn_store) : MigrationContext * conn_store :=
  let '(inspector, σ1) := alloc mysql.NewConnectionConfig σ in
  let '(applier, σ2) := alloc mysql.NewConnectionConfig σ1 in
  ({| DatabaseName := ""; OriginalTableName := ""; MigrateTableName := "";
      AlterStatement := "";
      config := zeroContextConfig; ConfigFile := ""; CliUser := "";
      CliPassword := "";
      defaultNumRetries := 60;
      ChunkSize := 1000;
      niceRatio := float64_0;
      MaxLagMillisecondsThrottleThreshold := 1500;
      replicationLagQuery := "";
      throttleControlReplicaKeys := mysql.NewInstanceKeyMap;
      throttleQuery := "";
      maxLoad := NewLoadMap;
      criticalLoad := NewLoadMap;
      CutOverLockTimeoutSeconds := 3;
      Noop := false; TestOnReplica := false; Migrate := false;
      MigrateOnReplica := false; CutOverType := CutOverAtomic;
      OriginalBinlogFormat := "";
      InspectorConnectionConfig := Some inspector;
      ApplierConnectionConfig := Some applier;
      RowCopyStartTime := time.zero; RowCopyEndTime := time.zero;
      pointOfInterestTime := time.zero;
      isThrottled := false; throttleReason := "";
      Iteration := 0 |}, σ2).

(** The package variable [context] as [init()] leaves it, and the store of
    connection descriptors at that point. *)
Definition context : MigrationContext := fst (newMigrationContext ∅).
Definition init_store : conn_store := snd (newMigrationContext ∅).

(** ** Derived table names *)

(** [GetGhostTableName] generates the name of the ghost table. *)
Definition GetGhostTableName (this : MigrationContext) : string :=
  if Migrate this then MigrateTableName this
  else "_" +:+ OriginalTableName this +:+ "_gho".

(** [GetOldTableName] generates the name of the table into which the
    original table is renamed. *)
Definition GetOldTableName (this : MigrationContext) : string :=
  if TestOnReplica this then "_" +:+ OriginalTableName this +:+ "_ght"
  else if MigrateOnReplica this then "_" +:+ OriginalTableName this +:+ "_ghr"
  else "_" +:+ OriginalTableName this +:+ "_del".

Definition GetChangelogTableName (this : MigrationContext) : string :=
  "_" +:+ OriginalTableName this +:+ "_ghc".

Definition GetVoluntaryLockName (this : MigrationContext) : string :=
  DatabaseName this +:+ "." +:+ OriginalTableName this +:+ ".lock".

Definition RequiresBinlogFormatChange (this : MigrationContext) : bool :=
  negb (String.eqb (OriginalBinlogFormat this) "ROW").

(** ** Bounded and clamped settings *)

Definition SetCutOverLockTimeoutSeconds (timeoutSeconds : Z) : M error :=
  fun this =>
    if timeoutSeconds <? 1 then
      (Some ("Minimal timeout is 1sec. Timeout remains at "
               +:+ verb_d (CutOverLockTimeoutSeconds this)), this)
    else if timeoutSeconds >? 10 then
      (Some ("Maximal timeout is 10sec. Timeout remains at "
               +:+ verb_d (CutOverLockTimeoutSeconds this)), this)
    else (None, set_CutOverLockTimeoutSeconds timeoutSeconds this).

Definition SetDefaultNumRetries (retries : Z) : M unit :=
  fun this =>
    if retries >? 0 then (tt, set_defaultNumRetries retries this)
    else (tt, this).

Definition MaxRetries (this : MigrationContext) : Z :=
  let retries := defaultNumRetries this in
  retries.

Definition SetMaxLagMillisecondsThrottleThreshold
    (maxLagMillisecondsThrottleThreshold : Z) : M unit :=
  fun this =>
    let maxLagMillisecondsThrottleThreshold :=
      if maxLagMillisecondsThrottleThreshold <? 1000 then 1000
      else maxLagMillisecondsThrottleThreshold in
    (tt, set_MaxLagMillisecondsThrottleThreshold
           maxLagMillisecondsThrottleThreshold this).

Definition SetChunkSize (chunkSize : Z) : M unit :=
  fun this =>
    let chunkSize := if chunkSize <? 100 then 100 else chunkSize in
    let chunkSize := if chunkSize >? 100000 then 100000 else chunkSize in
    (tt, set_ChunkSize chunkSize this).

Definition SetThrottled (throttle : bool) (reason : string) : M unit :=
  fun this => (tt, set_throttle throttle reason this).


(** ** Row-copy timing

    [time.Now()] reads the clocks; the [Time] it returns is the extra
    argument [now] of the methods that call it. *)

Definition MarkRowCopyStartTime (now : time.Time) : M unit :=
  fun this => (tt, set_RowCopyStartTime now this).

Definition ElapsedRowCopyTime (now : time.Time) (this : MigrationContext)
  : time.Duration :=
  if time.IsZero (RowCopyStartTime this) then 0
  else if time.IsZero (RowCopyEndTime this) then
    time.Sub now (RowCopyStartTime this)
  else time.Sub (RowCopyEndTime this) (RowCopyStartTime this).

Definition MarkRowCopyEndTime (now : time.Time) : M unit :=
  fun this => (tt, set_RowCopyEndTime now this).

(** ** Point of interest *)

Definition GetIteration (this : MigrationContext) : Z := Iteration this.

Definition MarkPointOfInterest (now : time.Time) : M Z :=
  fun this => (Iteration this, set_pointOfInterestTime now this).

Definition TimeSincePointOfInterest (now : time.Time) (this : MigrationContext)
  : time.Duration :=
  time.Sub now (pointOfInterestTime this).

(** ** Throttling queries, nice ratio and replica keys *)

Definition GetReplicationLagQuery (this : MigrationContext) : string :=
  let query := replicationLagQuery this in
  query.

Definition SetReplicationLagQuery (newQuery : string) : M unit :=
  fun this => (tt, set_replicationLagQuery newQuery this).

Definition GetThrottleQuery (this : MigrationContext) : string :=
  let query := throttleQuery this in
  query.

Definition SetThrottleQuery (newQuery : string) : M unit :=
  fun this => (tt, set_throttleQuery newQuery this).

Definition GetNiceRatio (this : MigrationContext) : float64 := niceRatio this.

Definition SetNiceRatio (newRatio : float64) : M unit :=
  fun this =>
    let newRatio := if SFltb newRatio float64_0 then float64_0 else newRatio in
    let newRatio :=
      if SFltb float64_100 newRatio then float64_100 else newRatio in
    (tt, set_niceRatio newRatio this).

Section ReplicaKeys.

(** [keys.ReadCommaDelimitedList(list)] of go/mysql, not among the sources:
    it is handed a set of keys and the text, and returns an error or [nil];
    its results here are that error and the set as the call leaves it. *)
Variable ReadCommaDelimitedList :
  mysql.InstanceKeyMap -> string -> error * mysql.InstanceKeyMap.

Definition ReadThrottleControlReplicaKeys (throttleControlReplicas : string)
  : M error :=
  fun this =>
    let keys := mysql.NewInstanceKeyMap in
    let '(err, keys) := ReadCommaDelimitedList keys throttleControlReplicas in
    match err with
    | Some e => (Some e, this)
    | None => (None, set_throttleControlReplicaKeys keys this)
    end.

End ReplicaKeys.

Definition AddThrottleControlReplicaKey (key : mysql.InstanceKey) : M error :=
  fun this =>
    (None, set_throttleControlReplicaKeys
             (mysql.AddKey key (throttleControlReplicaKeys this)) this).

(** ** Load maps *)

(** [strings.Split(s, sep)] for a one-byte separator: the pieces of [s]
    between the occurrences of [sep], never an empty list. *)
Fixpoint split_on (sep : ascii) (s : string) : list string :=
  match s with
  | EmptyString => [EmptyString]
  | String c r =>
      if Ascii.eqb c sep then EmptyString :: split_on sep r
      else match split_on sep r with
           | [] => [String c EmptyString]
           | w :: ws => String c w :: ws
           end
  end.

Definition digit_of (c : ascii) : option Z :=
  let n := Z.of_N (N_of_ascii c) in
  if (48 <=? n) && (n <=? 57) then Some (n - 48) else None.

Fixpoint digits_value (acc : Z) (s : string) : option Z :=
  match s with
  | EmptyString => Some acc
  | String c r => d ← digit_of c; digits_value (10 * acc + d) r
  end.

Definition nonempty (s : string) : bool := negb (String.eqb s "").

(** Modelled from the spec: what the spec calls a numeric value, made
    precise as a decimal numeral, that is digits with an optional sign and
    an optional fractional part. *)
Definition parse_unsigned (s : string) : option Q :=
  match split_on "." s with
  | [i] =>
      if nonempty i then n ← digits_value 0 i; Some (inject_Z n) else None
  | [i; f] =>
      if nonempty i && nonempty f then
        n ← digits_value 0 i;
        m ← digits_value 0 f;
        let scale := 10 ^ Z.of_nat (String.length f) in
        Some (Qred (Qmake (n * scale + m) (Z.to_pos scale)))
      else None
  | _ => None
  end.

Definition parse_number (s : string) : option Q :=
  match s with
  | String "-"%char r => Qopp <$> parse_unsigned r
  | String "+"%char r => parse_unsigned r
  | _ => parse_unsigned s
  end.

(** Modelled from the spec: one [Name=Value] pair; anything else is
    malformed. *)
Definition parse_pair (item : string) : option (string * Q) :=
  match split_on "=" item with
  | [name; value] =>
      if nonempty name then v ← parse_number value; Some (name, v) else None
  | _ => None
  end.

(** Binding a name in an ordered mapping: a name already bound keeps its
    place, a new name goes last. *)
Fixpoint bind_load (name : string) (v : Q) (m : LoadMap) : LoadMap :=
  match m with
  | [] => [(name, v)]
  | (k, w) :: m' =>
      if String.eqb k name then (k, v) :: m' else (k, w) :: bind_load name v m'
  end.

Fixpoint parse_pairs (items : list string) (acc : LoadMap) : option LoadMap :=
  match items with
  | [] => Some acc
  | item :: rest =>
      match parse_pair item with
      | Some (name, v) => parse_pairs rest (bind_load name v acc)
      | None => None
      end
  end.

(** Modelled from the spec: [ParseLoadMap] (load_map.go) is not among the
    sources. It parses a comma-separated list of [Name=Value] pairs into an
    ordered mapping and fails with a parse error when a pair is malformed or
    a value is not numeric. The empty string is the empty list of pairs. Its
    two results are the map and the error, as its caller binds them. *)
Definition ParseLoadMap (loadList : string) : LoadMap * error :=
  if nonempty loadList then
    match parse_pairs (split_on "," loadList) NewLoadMap with
    | Some m => (m, None)
    | None => (NewLoadMap, Some ("ParseError: " +:+ loadList))
    end
  else (NewLoadMap, None).

Section LoadMaps.

(** The parser that [ReadMaxLoad] and [ReadCriticalLoad] call. *)
Variable parseLoadMap : string -> LoadMap * error.

(** [ReadMaxLoad] parses the [--max-load] flag. It only applies changes in
    case there is no parsing error. *)
Definition ReadMaxLoad (maxLoadList : string) : M error :=
  fun this =>
    let '(loadMap, err) := parseLoadMap maxLoadList in
    match err with
    | Some e => (Some e, this)
    | None => (None, set_maxLoad loadMap this)
    end.

Definition ReadCriticalLoad (criticalLoadList : string) : M error :=
  fun this =>
    let '(loadMap, err) := parseLoadMap criticalLoadList in
    match err with
    | Some e => (Some e, this)
    | None => (None, set_criticalLoad loadMap this)
    end.

End LoadMaps.

(** [Duplicate]: a copy of the map; a value in this embedding. *)
Definition GetMaxLoad (this : MigrationContext) : LoadMap := maxLoad this.
Definition GetCriticalLoad (this : MigrationContext) : LoadMap := criticalLoad this.

(** ** Credentials *)

(** The assignments [p.User = u] and [p.Password = w] through a pointer [p];
    they panic ([None]) when [p] is [nil]. *)
Definition assign_User (p : pointer) (u : string) (σ : conn_store)
  : option conn_store :=
  l ← p; c ← σ !! l; Some (<[l := mysql.with_User u c]> σ).

Definition assign_Password (p : pointer) (w : string) (σ : conn_store)
  : option conn_store :=
  l ← p; c ← σ !! l; Some (<[l := mysql.with_Password w c]> σ).

(** [ApplyCredentials] sorts out the credentials between the config file and
    the CLI flags. It reads the context and writes the descriptor that
    [InspectorConnectionConfig] points to. *)
Definition ApplyCredentials (this : MigrationContext) (σ : conn_store)
  : option conn_store :=
  σ ← (if nonempty (User (Client (config this)))
       then assign_User (InspectorConnectionConfig this)
              (User (Client (config this))) σ
       else Some σ);
  σ ← (if nonempty (CliUser this)
       then assign_User (InspectorConnectionConfig this) (CliUser this) σ
       else Some σ);
  σ ← (if nonempty (Password (Client (config this)))
       then assign_Password (InspectorConnectionConfig this)
              (Password (Client (config this))) σ
       else Some σ);
  if nonempty (CliPassword this)
  then assign_Password (InspectorConnectionConfig this) (CliPassword this) σ
  else Some σ.

(** ** Package regexp, for the one pattern of context.go

    [envVariableRegexp] is compiled from a pattern of four parts: a dollar
    sign, an opening brace, a capturing group that holds a greedy repetition
    of the dot, and a closing brace. The pattern is not anchored, and the
    dot stands for any byte but a line feed. Go returns the leftmost match
    and, at that position, the one the greedy repetition prefers, the
    longest. *)
Module regexp.

Definition LF : ascii := "010"%char.

(** After the opening brace: the text that the group captures, the
    longest run free of line feeds that a closing brace follows. *)
Fixpoint capture (s : string) : option string :=
  match s with
  | EmptyString => None
  | String c r =>
      if Ascii.eqb c LF then None
      else match capture r with
           | Some g => Some (String c g)
           | None => if Ascii.eqb c "}" then Some EmptyString else None
           end
  end.

(** Texts free of line feeds. *)
Fixpoint one_line (s : string) : bool :=
  match s with
  | EmptyString => true
  | String c r => negb (Ascii.eqb c LF) && one_line r
  end.

(** A match that starts at the first byte of [s]. *)
Definition match_here (s : string) : option string :=
  match s with
  | String "$" (String "{" r) => capture r
  | _ => None
  end.

(** The leftmost match in [s]. *)
Fixpoint search (s : string) : option string :=
  match match_here s with
  | Some g => Some g
  | None =>
      match s with
      | EmptyString => None
      | String _ r => search r
      end
  end.

(** [envVariableRegexp.FindStringSubmatch(s)]: [nil] when nothing matches,
    otherwise the matched text followed by the text of its one group. *)
Definition FindStringSubmatch (s : string) : list string :=
  match search s with
  | Some g => ["${" +:+ g +:+ "}"; g]
  | None => []
  end.

End regexp.

(** ** Configuration file *)

Section ConfigFile.

(** [gcfg.ReadFileInto(&config, path)], with [gcfg.RelaxedParserMode]
    set: it is handed the address of the config structure and the path,
    and returns an error or [nil]; its results here are that error and
    the structure as the call leaves it. *)
Variable ReadFileInto : ContextConfig -> string -> error * ContextConfig.

(** [os.Getenv(name)]: the value of the variable in the environment of the
    process when the call is made; empty when the variable is not set. *)
Variable Getenv : string -> string.

Definition set_Client_User (u : string) (this : MigrationContext)
  : MigrationContext :=
  set_config
    (with_Client {| User := u; Password := Password (Client (config this)) |}
       (config this)) this.

Definition set_Client_Password (w : string) (this : MigrationContext)
  : MigrationContext :=
  set_config
    (with_Client {| User := User (Client (config this)); Password := w |}
       (config this)) this.

(** [ReadConfigFile] attempts to read the config file, if it exists. *)
Definition ReadConfigFile : M error :=
  fun this =>
    if String.eqb (ConfigFile this) "" then (None, this)
    else
      let '(err, cfg) := ReadFileInto (config this) (ConfigFile this) in
      let this := set_config cfg this in
      match err with
      | Some e => (Some e, this)
      | None =>
          let this :=
            match regexp.FindStringSubmatch (User (Client (config this))) with
            | _ :: name :: _ => set_Client_User (Getenv name) this
            | _ => this
            end in
          let this :=
            match regexp.FindStringSubmatch (Password (Client (config this))) with
            | _ :: name :: _ => set_Client_Password (Getenv name) this
            | _ => this
            end in
          (None, this)
      end.

End ConfigFile.

(** ** Histories of calls

    What a method returns after, or before, some other method has been
    called is a statement about the calls made since [init()]. A call is a
    call of one of the methods of the context that assign to the context or
    write through one of its pointers; the methods that only read leave no
    trace. The state between two calls is the context together with the
    store of connection descriptors. The three mutexes of the context are
    allocated by [newMigrationContext] and assigned by no method, so that
    in a history that starts from [init()] no [Lock] meets a [nil] mutex;
    the one panic left to a call is the assignment through a [nil]
    inspector pointer in [ApplyCredentials]. *)

Section Calls.

Variable parseLoadMap : string -> LoadMap * error.
Variable ReadCommaDelimitedList :
  mysql.InstanceKeyMap -> string -> error * mysql.InstanceKeyMap.
Variable ReadFileInto : ContextConfig -> string -> error * ContextConfig.
Variable Getenv : string -> string.

Inductive call : Type :=
| CallSetCutOverLockTimeoutSeconds (timeoutSeconds : Z)
| CallSetDefaultNumRetries (retries : Z)
| CallMarkRowCopyStartTime (now : time.Time)
| CallMarkRowCopyEndTime (now : time.Time)
| CallMarkPointOfInterest (now : time.Time)
| CallSetMaxLagMillisecondsThrottleThreshold (threshold : Z)
| CallSetChunkSize (chunkSize : Z)
| CallSetThrottled (throttle : bool) (reason : string)
| CallSetReplicationLagQuery (newQuery : string)
| CallSetThrottleQuery (newQuery : string)
| CallSetNiceRatio (newRatio : float64)
| CallReadMaxLoad (maxLoadList : string)
| CallReadCriticalLoad (criticalLoadList : string)
| CallReadThrottleControlReplicaKeys (throttleControlReplicas : string)
| CallAddThrottleControlReplicaKey (key : mysql.InstanceKey)
| CallApplyCredentials
| CallReadConfigFile.

Definition state : Type := MigrationContext * conn_store.

(** A method that assigns to the context and leaves the store alone. *)
Definition on_context {A : Type} (method : M A) (s : state) : option state :=
  Some ((method s.1).2, s.2).

(** The state after one call; [None] when the call panics. *)
Definition exec (c : call) (s : state) : option state :=
  match c with
  | CallSetCutOverLockTimeoutSeconds v =>
      on_context (SetCutOverLockTimeoutSeconds v) s
  | CallSetDefaultNumRetries v => on_context (SetDefaultNumRetries v) s
  | CallMarkRowCopyStartTime now => on_context (MarkRowCopyStartTime now) s
  | CallMarkRowCopyEndTime now => on_context (MarkRowCopyEndTime now) s
  | CallMarkPointOfInterest now => on_context (MarkPointOfInterest now) s
  | CallSetMaxLagMillisecondsThrottleThreshold v =>
      on_context (SetMaxLagMillisecondsThrottleThreshold v) s
  | CallSetChunkSize v => on_context (SetChunkSize v) s
  | CallSetThrottled b reason => on_context (SetThrottled b reason) s
  | CallSetReplicationLagQuery q => on_context (SetReplicationLagQuery q) s
  | CallSetThrottleQuery q => on_context (SetThrottleQuery q) s
  | CallSetNiceRatio r => on_context (SetNiceRatio r) s
  | CallReadMaxLoad l => on_context (ReadMaxLoad parseLoadMap l) s
  | CallReadCriticalLoad l => on_context (ReadCriticalLoad parseLoadMap l) s
  | CallReadThrottleControlReplicaKeys l =>
      on_context (ReadThrottleControlReplicaKeys ReadCommaDelimitedList l) s
  | CallAddThrottleControlReplicaKey key =>
      on_context (AddThrottleControlReplicaKey key) s
  | CallApplyCredentials => σ ← ApplyCredentials s.1 s.2; Some (s.1, σ)
  | CallReadConfigFile => on_context (ReadConfigFile ReadFileInto Getenv) s
  end.

(** The state after a history of calls, the earliest first. *)
Fixpoint run (cs : list call) (s : state) : option state :=
  match cs with
  | [] => Some s
  | c :: cs' => s' ← exec c s; run cs' s'
  end.

Definition marks_start (c : call) : bool :=
  match c with CallMarkRowCopyStartTime _ => true | _ => false end.

Definition marks_end (c : call) : bool :=
  match c with CallMarkRowCopyEndTime _ => true | _ => false end.

(** Histories without a call of [MarkRowCopyStartTime], respectively of
    [MarkRowCopyEndTime]. *)
Definition no_start (cs : list call) : Prop := forallb (fun c => negb (marks_start c)) cs = true.
Definition no_end (cs : list call) : Prop := forallb (fun c => negb (marks_end c)) cs = true.

End Calls.

(** The state that [init()] leaves. *)
Definition init_state : state := (context, init_store).

(** ** Contexts and statements used by the properties *)

(** A context for the table [orders], all flags unset. *)
Definition orders : MigrationContext := set_OriginalTableName "orders" context.

(** A non-positive retry value is answered with an error that the caller can
    check, and the retry value stays. *)
Definition retries_rejected_with_error (v : Z) (this : MigrationContext) : Prop :=
  is_Some (returned_error (SetDefaultNumRetries v this).1) /\
  MaxRetries (SetDefaultNumRetries v this).2 = MaxRetries this.

(** The credentials that [ApplyCredentials] leaves in a descriptor [c]:
    for the user and for the password alike, the CLI value when it is not
    empty, else the config-file value when it is not empty, else the value
    that [c] had. *)
Definition pick (cli cfg old : string) : string :=
  if nonempty cli then cli else if nonempty cfg then cfg else old.

Definition resolved (this : MigrationContext) (c : mysql.ConnectionConfig)
  : mysql.ConnectionConfig :=
  {| mysql.Key := mysql.Key c;
     mysql.User := pick (CliUser this) (User (Client (config this))) (mysql.User c);
     mysql.Password :=
       pick (CliPassword this) (Password (Client (config this))) (mysql.Password c) |}.

(** A process environment given by its bindings. *)
Fixpoint env_of (vars : list (string * string)) (name : string) : string :=
  match vars with
  | [] => ""
  | (k, v) :: vars' => if String.eqb k name then v else env_of vars' name
  end.

(** A readable config file whose client section takes both credentials from
    the environment: [user=${DB_USER}] and [password=${DB_PASS}]. *)
Definition cnf_from_env (cfg : ContextConfig) (path : string)
  : error * ContextConfig :=
  (None, with_Client {| User := "${DB_USER}"; Password := "${DB_PASS}" |} cfg).

(** A config file that cannot be read. *)
Definition cnf_missing (cfg : ContextConfig) (path : string)
  : error * ContextConfig :=
  (Some ("open " +:+ path +:+ ": no such file or directory"), cfg).

(** The context of a run started with [--conf=/etc/gh-ost.cnf]. *)
Definition with_conf : MigrationContext := set_ConfigFile "/etc/gh-ost.cnf" context.

(** A config-file user or password of the form [${NAME}] whose variable is
    empty in the environment is answered with an error. *)
Definition empty_variable_is_an_error
    (ReadFileInto : ContextConfig -> string -> error * ContextConfig)
    (Getenv : string -> string) (this : MigrationContext) : Prop :=
  forall cfg name,
    ReadFileInto (config this) (ConfigFile this) = (None, cfg) ->
    User (Client cfg) = "${" +:+ name +:+ "}"
      \/ Password (Client cfg) = "${" +:+ name +:+ "}" ->
    Getenv name = "" ->
    is_Some (returned_error (ReadConfigFile ReadFileInto Getenv this).1).

(** The context of a run with the given config-file and CLI credentials. *)
Definition with_credentials (cfgUser cfgPassword cliUser cliPassword : string)
  : MigrationContext :=
  set_CliPassword cliPassword
    (set_CliUser cliUser
       (set_config
          (with_Client {| User := cfgUser; Password := cfgPassword |}
             zeroContextConfig) context)).



(** The ranges that the setters of the four numeric settings enforce. *)
Definition within_bounds (this : MigrationContext) : Prop :=
  100 <= ChunkSize this <= 100000 /\
  1000 <= MaxLagMillisecondsThrottleThreshold this /\
  1 <= CutOverLockTimeoutSeconds this <= 10 /\
  0 < MaxRetries this.

(** Whether the byte [c] occurs in [s]. *)
Fixpoint mentions (c : ascii) (s : string) : bool :=
  match s with
  | EmptyString => false
  | String c' r => Ascii.eqb c' c || mentions c r
  end.

(** The assignment [this.ApplierConnectionConfig = p], as made by a run
    that uses one descriptor for both connections. *)
Definition set_ApplierConnectionConfig (p : pointer) (this : MigrationContext)
  : MigrationContext :=
  {| DatabaseName := DatabaseName this; OriginalTableName := OriginalTableName this;
     MigrateTableName := MigrateTableName this; AlterStatement := AlterStatement this;
     config := config this; ConfigFile := ConfigFile this; CliUser := CliUser this;
     CliPassword := CliPassword this; defaultNumRetries := defaultNumRetries this;
     ChunkSize := ChunkSize this; niceRatio := niceRatio this;
     MaxLagMillisecondsThrottleThreshold := MaxLagMillisecondsThrottleThreshold this;
     replicationLagQuery := replicationLagQuery this;
     throttleControlReplicaKeys := throttleControlReplicaKeys this;
     throttleQuery := throttleQuery this; maxLoad := maxLoad this;
     criticalLoad := criticalLoad this;
     CutOverLockTimeoutSeconds := CutOverLockTimeoutSeconds this; Noop := Noop this;
     TestOnReplica := TestOnReplica this; Migrate := Migrate this;
     MigrateOnReplica := MigrateOnReplica this; CutOverType := CutOverType this;
     OriginalBinlogFormat := OriginalBinlogFormat this;
     InspectorConnectionConfig := InspectorConnectionConfig this;
     ApplierConnectionConfig := p; RowCopyStartTime := RowCopyStartTime this;
     RowCopyEndTime := RowCopyEndTime this; pointOfInterestTime := pointOfInterestTime this;
     isThrottled := isThrottled this; throttleReason := throttleReason this;
     Iteration := Iteration this |}.

(** A run on one instance: the applier pointer is the inspector pointer. *)
Definition single_descriptor : MigrationContext :=
  set_ApplierConnectionConfig (InspectorConnectionConfig context)
    (with_credentials "" "" "cliuser" "clipass").

(** A readable config file with text around the variable in the user and
    a password written out: [user=app-${DB_USER}-rw], [password=secret]. *)
Definition cnf_mixed (cfg : ContextConfig) (path : string)
  : error * ContextConfig :=
  (None, with_Client {| User := "app-${DB_USER}-rw"; Password := "secret" |} cfg).

(** An environment in which [DB_USER] is set. *)
Definition env_ghost : string -> string := env_of [("DB_USER", "ghost")].

(** The assignment [this.DatabaseName = v], as made from the command line. *)
Definition set_DatabaseName (v : string) (this : MigrationContext)
  : MigrationContext :=
  {| DatabaseName := v; OriginalTableName := OriginalTableName this;
     MigrateTableName := MigrateTableName this; AlterStatement := AlterStatement this;
     config := config this; ConfigFile := ConfigFile this; CliUser := CliUser this;
     CliPassword := CliPassword this; defaultNumRetries := defaultNumRetries this;
     ChunkSize := ChunkSize this; niceRatio := niceRatio this;
     MaxLagMillisecondsThrottleThreshold := MaxLagMillisecondsThrottleThreshold this;
     replicationLagQuery := replicationLagQuery this;
     throttleControlReplicaKeys := throttleControlReplicaKeys this;
     throttleQuery := throttleQuery this; maxLoad := maxLoad this;
     criticalLoad := criticalLoad this;
     CutOverLockTimeoutSeconds := CutOverLockTimeoutSeconds this; Noop := Noop this;
     TestOnReplica := TestOnReplica this; Migrate := Migrate this;
     MigrateOnReplica := MigrateOnReplica this; CutOverType := CutOverType this;
     OriginalBinlogFormat := OriginalBinlogFormat this;
     InspectorConnectionConfig := InspectorConnectionConfig this;
     ApplierConnectionConfig := ApplierConnectionConfig this;
     RowCopyStartTime := RowCopyStartTime this; RowCopyEndTime := RowCopyEndTime this;
     pointOfInterestTime := pointOfInterestTime this; isThrottled := isThrottled this;
     throttleReason := throttleReason this; Iteration := Iteration this |}.

(** The table [orders] of the database [shop]. *)
Definition shop_orders : MigrationContext := set_DatabaseName "shop" orders.

(** States in which the inspector pointer points to a descriptor. *)
Definition wired (s : state) : Prop :=
  exists l, InspectorConnectionConfig s.1 = Some l /\ is_Some (s.2 !! l).

(** A reader of replica lists that accepts every list and adds no key. *)
Definition no_replicas (keys : mysql.InstanceKeyMap) (list : string)
  : error * mysql.InstanceKeyMap :=
  (None, keys).

(** A value as [time.Now()] returns it: a wall-clock instant and a reading
    of the monotonic clock. *)
Definition reading (wall mono : Z) : time.Time :=
  {| time.wall := wall; time.mono := Some mono |}.

(** Whether a [Time] holds a reading of the monotonic clock. *)
Definition monotonic (t : time.Time) : bool :=
  match time.mono t with Some _ => true | None => false end.


(** Readings of the clocks of one process. The wall clock shows the year
    2016; row copy starts at [started], ends at [ended], and [later] comes
    after both. Between two readings the wall clock and the monotonic clock
    do not advance by quite the same amount. *)
Definition started : time.Time := reading 63600000000000000000 5000000.
Definition ended : time.Time := reading 63600000000008000000 13000012.
Definition later : time.Time := reading 63600000000010206000 15206015.

(** * Properties *)

(** ** Derived table names *)

(** C4. The derived names follow the fixed templates: the ghost table is
    [MigrateTableName] when [Migrate] is set and [_<t>_gho] otherwise; the
    old table is [_<t>_ght] when [TestOnReplica] is set, [_<t>_ghr] when
    [MigrateOnReplica] is set on its own, and [_<t>_del] when neither is
    set. *)
Theorem derived_table_names (this : MigrationContext) :
  (Migrate this = true -> GetGhostTableName this = MigrateTableName this) /\
  (Migrate this = false ->
     GetGhostTableName this = "_" +:+ OriginalTableName this +:+ "_gho") /\
  (TestOnReplica this = true ->
     GetOldTableName this = "_" +:+ OriginalTableName this +:+ "_ght") /\
  (MigrateOnReplica this = true -> TestOnReplica this = false ->
     GetOldTableName this = "_" +:+ OriginalTableName this +:+ "_ghr") /\
  (TestOnReplica this = false -> MigrateOnReplica this = false ->
     GetOldTableName this = "_" +:+ OriginalTableName this +:+ "_del").
Proof.
  unfold GetGhostTableName, GetOldTableName.
  repeat split; intros; repeat match goal with H : _ = _ |- _ => rewrite H end;
    reflexivity.
Qed.

(** The names derived for the table [orders]. *)
Lemma derived_table_names_orders :
  GetGhostTableName orders = "_orders_gho" /\
  GetGhostTableName (set_MigrateTableName "orders_v2" (set_Migrate true orders))
    = "orders_v2" /\
  GetOldTableName (set_TestOnReplica true orders) = "_orders_ght" /\
  GetOldTableName (set_MigrateOnReplica true orders) = "_orders_ghr" /\
  GetOldTableName orders = "_orders_del".
Proof.
  split; [| split; [| split; [| split]]].
  - exact (proj1 (proj2 (derived_table_names orders)) eq_refl).
  - exact (proj1 (derived_table_names
                    (set_MigrateTableName "orders_v2" (set_Migrate true orders)))
             eq_refl).
  - exact (proj1 (proj2 (proj2 (derived_table_names (set_TestOnReplica true orders))))
             eq_refl).
  - exact (proj1 (proj2 (proj2 (proj2
             (derived_table_names (set_MigrateOnReplica true orders)))))
             eq_refl eq_refl).
  - exact (proj2 (proj2 (proj2 (proj2 (derived_table_names orders))))
             eq_refl eq_refl).
Defined.

(** C10. When [TestOnReplica] and [MigrateOnReplica] are both set, the old
    table is [_<t>_ght]: [TestOnReplica] takes precedence. *)
Theorem old_table_name_both_flags (this : MigrationContext) :
  TestOnReplica this = true -> MigrateOnReplica this = true ->
  GetOldTableName this = "_" +:+ OriginalTableName this +:+ "_ght".
Proof.
  intros Htest _. unfold GetOldTableName. now rewrite Htest.
Qed.

(** The table [orders] with both flags set. *)
Lemma old_table_name_both_flags_orders :
  GetOldTableName (set_MigrateOnReplica true (set_TestOnReplica true orders))
    = "_orders_ght".
Proof.
  exact (old_table_name_both_flags
           (set_MigrateOnReplica true (set_TestOnReplica true orders))
           eq_refl eq_refl).
Defined.

(** ** Bounded and clamped settings *)

(** C1. For [1 <= v <= 10], [SetCutOverLockTimeoutSeconds v] returns no
    error and stores [v]; for [v < 1] or [v > 10] it returns an error and
    leaves the context, and so the stored value, as it was. *)
Theorem SetCutOverLockTimeoutSeconds_bounds (v : Z) (this : MigrationContext) :
  (1 <= v <= 10 ->
     returned_error (SetCutOverLockTimeoutSeconds v this).1 = None /\
     CutOverLockTimeoutSeconds (SetCutOverLockTimeoutSeconds v this).2 = v) /\
  (v < 1 \/ v > 10 ->
     is_Some (returned_error (SetCutOverLockTimeoutSeconds v this).1) /\
     (SetCutOverLockTimeoutSeconds v this).2 = this /\
     CutOverLockTimeoutSeconds (SetCutOverLockTimeoutSeconds v this).2
       = CutOverLockTimeoutSeconds this).
Proof.
  unfold SetCutOverLockTimeoutSeconds. split.
  - intros [Hlo Hhi].
    destruct (Z.ltb_spec v 1); [lia |].
    destruct (Z.gtb_spec v 10); [lia |].
    split; reflexivity.
  - intros Hout.
    destruct (Z.ltb_spec v 1); [cbn; eauto |].
    destruct (Z.gtb_spec v 10); [cbn; eauto | lia].
Qed.

(** The bounds 1 and 10 are accepted, 0 and 11 leave the default of 3. *)
Lemma SetCutOverLockTimeoutSeconds_bounds_examples :
  CutOverLockTimeoutSeconds (SetCutOverLockTimeoutSeconds 1 context).2 = 1 /\
  CutOverLockTimeoutSeconds (SetCutOverLockTimeoutSeconds 10 context).2 = 10 /\
  CutOverLockTimeoutSeconds (SetCutOverLockTimeoutSeconds 0 context).2 = 3 /\
  CutOverLockTimeoutSeconds (SetCutOverLockTimeoutSeconds 11 context).2 = 3.
Proof.
  split; [| split; [| split]].
  - apply (SetCutOverLockTimeoutSeconds_bounds 1 context). lia.
  - apply (SetCutOverLockTimeoutSeconds_bounds 10 context). lia.
  - apply (SetCutOverLockTimeoutSeconds_bounds 0 context). lia.
  - apply (SetCutOverLockTimeoutSeconds_bounds 11 context). lia.
Defined.

(** C2. For every [v], [SetChunkSize v] stores [max 100 (min 100000 v)];
    it has no error result and changes no other field. *)
Theorem SetChunkSize_clamps (v : Z) (this : MigrationContext) :
  ChunkSize (SetChunkSize v this).2 = Z.max 100 (Z.min 100000 v) /\
  returned_error (SetChunkSize v this).1 = None /\
  (SetChunkSize v this).2 = set_ChunkSize (Z.max 100 (Z.min 100000 v)) this.
Proof.
  assert (Hclamp :
    (let c := if v <? 100 then 100 else v in
     if c >? 100000 then 100000 else c) = Z.max 100 (Z.min 100000 v)).
  { cbv zeta.
    destruct (Z.ltb_spec v 100);
      [destruct (Z.gtb_spec 100 100000) | destruct (Z.gtb_spec v 100000)]; lia. }
  unfold SetChunkSize. cbv zeta in *. rewrite Hclamp. repeat split.
Qed.

(** C8, as worded, fails: [SetDefaultNumRetries] is declared without
    results, so that a caller of [SetDefaultNumRetries 0] is handed no error
    to check. *)
Lemma SetDefaultNumRetries_returns_no_error :
  ~ retries_rejected_with_error 0 context.
Proof.
  intros [[e He] _]. cbn in He. discriminate He.
Qed.

(** C8, amended. A non-positive retry value is ignored without any error
    being returned: the context is unchanged and [MaxRetries] still returns
    the prior value. A positive value is stored. *)
Theorem SetDefaultNumRetries_positive_only (v : Z) (this : MigrationContext) :
  (v <= 0 ->
     returned_error (SetDefaultNumRetries v this).1 = None /\
     (SetDefaultNumRetries v this).2 = this /\
     MaxRetries (SetDefaultNumRetries v this).2 = MaxRetries this) /\
  (0 < v ->
     returned_error (SetDefaultNumRetries v this).1 = None /\
     MaxRetries (SetDefaultNumRetries v this).2 = v).
Proof.
  unfold SetDefaultNumRetries.
  split; intros Hv; destruct (Z.gtb_spec v 0); try lia; repeat split.
Qed.

(** On the initial context, whose retry value is 60. *)
Lemma SetDefaultNumRetries_positive_only_examples :
  MaxRetries (SetDefaultNumRetries 0 context).2 = 60 /\
  MaxRetries (SetDefaultNumRetries (-5) context).2 = 60 /\
  MaxRetries (SetDefaultNumRetries 7 context).2 = 7.
Proof.
  split; [| split].
  - apply (SetDefaultNumRetries_positive_only 0 context). lia.
  - apply (SetDefaultNumRetries_positive_only (-5) context). lia.
  - apply (SetDefaultNumRetries_positive_only 7 context). lia.
Defined.

(** ** Load maps *)

Section LoadMapsAnyParser.

Variable parseLoadMap : string -> LoadMap * error.

(** Whatever the parser: either it succeeds and its map replaces the stored
    one, or it fails and the context is returned as it was. *)
Lemma ReadMaxLoad_all_or_nothing (s : string) (this : MigrationContext) :
  (exists m, parseLoadMap s = (m, None) /\
     ReadMaxLoad parseLoadMap s this = (None, set_maxLoad m this)) \/
  (exists m e, parseLoadMap s = (m, Some e) /\
     ReadMaxLoad parseLoadMap s this = (Some e, this)).
Proof.
  unfold ReadMaxLoad. destruct (parseLoadMap s) as [m [e |]]; eauto.
Qed.

End LoadMapsAnyParser.

(** C3. For every string [s], [ReadMaxLoad s] either parses [s] and puts the
    parsed map in place of the stored max-load map, all other fields being
    kept, or returns an error and leaves the context as it was. Parsing
    [Threads_running=100,Threads_connected=500] stores a map of two entries
    with these values; parsing [Threads_running=abc] fails and keeps the
    prior state. *)
Theorem ReadMaxLoad_replaces_or_keeps :
  (forall (s : string) (this : MigrationContext),
     let r := ReadMaxLoad ParseLoadMap s this in
     (returned_error r.1 = None /\
      ParseLoadMap s = (GetMaxLoad r.2, None) /\
      r.2 = set_maxLoad (GetMaxLoad r.2) this) \/
     (is_Some (returned_error r.1) /\ r.2 = this /\
      GetMaxLoad r.2 = GetMaxLoad this)) /\
  (forall this : MigrationContext,
     let r := ReadMaxLoad ParseLoadMap
                "Threads_running=100,Threads_connected=500" this in
     returned_error r.1 = None /\
     GetMaxLoad r.2 = [("Threads_running", 100%Q); ("Threads_connected", 500%Q)] /\
     length (GetMaxLoad r.2) = 2%nat) /\
  (forall this : MigrationContext,
     let r := ReadMaxLoad ParseLoadMap "Threads_running=abc" this in
     is_Some (returned_error r.1) /\ r.2 = this /\
     GetMaxLoad r.2 = GetMaxLoad this).
Proof.
  split; [| split].
  - intros s this r. subst r.
    destruct (ReadMaxLoad_all_or_nothing ParseLoadMap s this)
      as [(m & Hparse & Hread) | (m & e & Hparse & Hread)]; rewrite Hread.
    + left. cbn. auto.
    + right. cbn. eauto.
  - intros this. cbv zeta. unfold ReadMaxLoad.
    replace (ParseLoadMap "Threads_running=100,Threads_connected=500")
      with ([("Threads_running", 100%Q); ("Threads_connected", 500%Q)],
            @None string) by (vm_compute; reflexivity).
    cbn. auto.
  - intros this. cbv zeta. unfold ReadMaxLoad.
    replace (ParseLoadMap "Threads_running=abc")
      with (NewLoadMap, Some "ParseError: Threads_running=abc")
      by (vm_compute; reflexivity).
    cbn. eauto.
Qed.

(** ** Credentials *)

Lemma nonempty_true (s : string) : nonempty s = true <-> s <> "".
Proof.
  unfold nonempty. rewrite negb_true_iff. apply String.eqb_neq.
Qed.

Lemma nonempty_false (s : string) : nonempty s = false <-> s = "".
Proof.
  unfold nonempty. rewrite negb_false_iff. apply String.eqb_eq.
Qed.

Lemma assign_User_insert (l : loc) (u : string) (c : mysql.ConnectionConfig)
    (σ : conn_store) :
  assign_User (Some l) u (<[l := c]> σ) = Some (<[l := mysql.with_User u c]> σ).
Proof.
  unfold assign_User. cbn. rewrite lookup_insert_eq. cbn.
  now rewrite insert_insert_eq.
Qed.

Lemma assign_Password_insert (l : loc) (w : string) (c : mysql.ConnectionConfig)
    (σ : conn_store) :
  assign_Password (Some l) w (<[l := c]> σ)
  = Some (<[l := mysql.with_Password w c]> σ).
Proof.
  unfold assign_Password. cbn. rewrite lookup_insert_eq. cbn.
  now rewrite insert_insert_eq.
Qed.

(** The store after [ApplyCredentials], when the inspector descriptor is
    allocated at [l]: only [l] is written, with the resolved credentials. *)
Lemma ApplyCredentials_insert (this : MigrationContext) (l : loc)
    (c : mysql.ConnectionConfig) (σ : conn_store) :
  InspectorConnectionConfig this = Some l ->
  ApplyCredentials this (<[l := c]> σ) = Some (<[l := resolved this c]> σ).
Proof.
  intros Hl. unfold ApplyCredentials, resolved, pick. rewrite Hl.
  destruct (nonempty (User (Client (config this))));
    destruct (nonempty (CliUser this));
    destruct (nonempty (Password (Client (config this))));
    destruct (nonempty (CliPassword this));
    repeat (rewrite ?assign_User_insert, ?assign_Password_insert;
            match goal with
            | |- context [mbind ?f (Some ?x)] =>
                change (mbind f (Some x)) with (f x); cbv beta
            end);
    rewrite ?assign_User_insert, ?assign_Password_insert;
    destruct c as [key user password]; reflexivity.
Qed.

Lemma ApplyCredentials_lookup (this : MigrationContext) (l : loc)
    (c : mysql.ConnectionConfig) (σ : conn_store) :
  InspectorConnectionConfig this = Some l -> σ !! l = Some c ->
  ApplyCredentials this σ = Some (<[l := resolved this c]> σ).
Proof.
  intros Hl Hc.
  rewrite <- (insert_id σ l c Hc) at 1.
  rewrite (ApplyCredentials_insert this l c σ Hl).
  reflexivity.
Qed.

Lemma resolved_idempotent (this : MigrationContext) (c : mysql.ConnectionConfig) :
  resolved this (resolved this c) = resolved this c.
Proof.
  unfold resolved, pick. cbn.
  destruct (nonempty (CliUser this)), (nonempty (User (Client (config this)))),
    (nonempty (CliPassword this)), (nonempty (Password (Client (config this))));
    reflexivity.
Qed.

(** Without a descriptor to write to, [ApplyCredentials] either has nothing
    to assign and returns the store as it is, or panics. *)
Lemma ApplyCredentials_no_descriptor (this : MigrationContext) (σ : conn_store) :
  (forall u, assign_User (InspectorConnectionConfig this) u σ = None) ->
  (forall w, assign_Password (InspectorConnectionConfig this) w σ = None) ->
  ApplyCredentials this σ = None \/ ApplyCredentials this σ = Some σ.
Proof.
  intros Huser Hpassword. unfold ApplyCredentials.
  destruct (nonempty (User (Client (config this))));
    [rewrite Huser; now left |].
  cbn. destruct (nonempty (CliUser this)); [rewrite Huser; now left |].
  cbn. destruct (nonempty (Password (Client (config this))));
    [rewrite Hpassword; now left |].
  cbn. destruct (nonempty (CliPassword this)); [rewrite Hpassword; now left |].
  now right.
Qed.

(** C5. [ApplyCredentials] writes the inspector connection descriptor, and
    nothing else, with a fixed precedence: a non-empty CLI user wins, else a
    non-empty config-file user is applied, else the user stays; the same
    holds for the password, independently of the user. *)
Theorem ApplyCredentials_precedence (this : MigrationContext) (σ : conn_store)
    (l : loc) (c : mysql.ConnectionConfig) :
  InspectorConnectionConfig this = Some l ->
  σ !! l = Some c ->
  exists c' : mysql.ConnectionConfig,
    ApplyCredentials this σ = Some (<[l := c']> σ) /\
    mysql.Key c' = mysql.Key c /\
    (CliUser this <> "" -> mysql.User c' = CliUser this) /\
    (CliUser this = "" -> User (Client (config this)) <> "" ->
       mysql.User c' = User (Client (config this))) /\
    (CliUser this = "" -> User (Client (config this)) = "" ->
       mysql.User c' = mysql.User c) /\
    (CliPassword this <> "" -> mysql.Password c' = CliPassword this) /\
    (CliPassword this = "" -> Password (Client (config this)) <> "" ->
       mysql.Password c' = Password (Client (config this))) /\
    (CliPassword this = "" -> Password (Client (config this)) = "" ->
       mysql.Password c' = mysql.Password c).
Proof.
  intros Hl Hc. exists (resolved this c).
  split; [now apply ApplyCredentials_lookup |].
  split; [reflexivity |].
  unfold resolved, pick. cbn.
  repeat split; intros;
    repeat match goal with
           | H : _ <> "" |- _ => apply nonempty_true in H; rewrite H
           | H : _ = "" |- _ => apply nonempty_false in H; rewrite H
           end; reflexivity.
Qed.

(** The initial store, whose inspector descriptor is at address 1. *)
Lemma ApplyCredentials_precedence_examples :
  (exists c', ApplyCredentials (with_credentials "cfguser" "" "cliuser" "") init_store
              = Some (<[1%positive := c']> init_store) /\
              mysql.User c' = "cliuser") /\
  (exists c', ApplyCredentials (with_credentials "cfguser" "" "" "") init_store
              = Some (<[1%positive := c']> init_store) /\
              mysql.User c' = "cfguser") /\
  (exists c', ApplyCredentials (with_credentials "" "cfgpass" "cliuser" "") init_store
              = Some (<[1%positive := c']> init_store) /\
              mysql.User c' = "cliuser" /\ mysql.Password c' = "cfgpass").
Proof.
  split; [| split].
  - destruct (ApplyCredentials_precedence
                (with_credentials "cfguser" "" "cliuser" "") init_store
                1%positive mysql.NewConnectionConfig eq_refl eq_refl)
      as (c' & Hstore & _ & Hcli & _).
    exists c'. split; [exact Hstore |]. apply Hcli. discriminate.
  - destruct (ApplyCredentials_precedence
                (with_credentials "cfguser" "" "" "") init_store
                1%positive mysql.NewConnectionConfig eq_refl eq_refl)
      as (c' & Hstore & _ & _ & Hcfg & _).
    exists c'. split; [exact Hstore |]. apply Hcfg; [reflexivity | discriminate].
  - destruct (ApplyCredentials_precedence
                (with_credentials "" "cfgpass" "cliuser" "") init_store
                1%positive mysql.NewConnectionConfig eq_refl eq_refl)
      as (c' & Hstore & _ & Hcli & _ & _ & _ & Hcfg & _).
    exists c'. split; [exact Hstore |]. split.
    + apply Hcli. discriminate.
    + apply Hcfg; [reflexivity | discriminate].
Defined.

(** C6. [ApplyCredentials] is idempotent: whatever the context and the
    store of connection descriptors, a second call with the same
    config-file and CLI credentials leaves the store, and so the inspector
    connection, as the first call left it, and panics only if the first
    did. *)
Theorem ApplyCredentials_idempotent (this : MigrationContext) (σ : conn_store) :
  ApplyCredentials this σ ≫= ApplyCredentials this = ApplyCredentials this σ.
Proof.
  destruct (InspectorConnectionConfig this) as [l |] eqn:Hl.
  - destruct (σ !! l) as [c |] eqn:Hc.
    + rewrite (ApplyCredentials_lookup this l c σ Hl Hc).
      change (ApplyCredentials this (<[l := resolved this c]> σ)
              = Some (<[l := resolved this c]> σ)).
      rewrite (ApplyCredentials_insert this l (resolved this c) σ Hl).
      now rewrite resolved_idempotent.
    + destruct (ApplyCredentials_no_descriptor this σ) as [Hnone | Hsame].
      * intros u. rewrite Hl. unfold assign_User. cbn. now rewrite Hc.
      * intros w. rewrite Hl. unfold assign_Password. cbn. now rewrite Hc.
      * now rewrite Hnone.
      * rewrite Hsame. exact Hsame.
  - destruct (ApplyCredentials_no_descriptor this σ) as [Hnone | Hsame].
    + intros u. now rewrite Hl.
    + intros w. now rewrite Hl.
    + now rewrite Hnone.
    + rewrite Hsame. exact Hsame.
Qed.

(** ** Histories of calls *)

Lemma saturate_monotone (d d' : Z) :
  d <= d' -> time.saturate d <= time.saturate d'.
Proof.
  unfold time.saturate, time.minDuration, time.maxDuration. intros Hle.
  repeat match goal with
         | |- context [?a <? ?b] => destruct (Z.ltb_spec a b)
         end; lia.
Qed.

Lemma saturate_sign (d : Z) :
  0 <= d -> 0 <= time.saturate d <= time.maxDuration.
Proof.
  unfold time.saturate, time.minDuration, time.maxDuration. intros Hd.
  repeat match goal with
         | |- context [?a <? ?b] => destruct (Z.ltb_spec a b)
         end; lia.
Qed.

Section CallHistories.

Variable parseLoadMap : string -> LoadMap * error.
Variable ReadCommaDelimitedList :
  mysql.InstanceKeyMap -> string -> error * mysql.InstanceKeyMap.
Variable ReadFileInto : ContextConfig -> string -> error * ContextConfig.
Variable Getenv : string -> string.

Local Abbreviation do_call :=
  (exec parseLoadMap ReadCommaDelimitedList ReadFileInto Getenv).
Local Abbreviation do_calls :=
  (run parseLoadMap ReadCommaDelimitedList ReadFileInto Getenv).

Lemma run_cons_Some (c : call) (cs : list call) (s s' : state) :
  do_calls (c :: cs) s = Some s' ->
  exists s1, do_call c s = Some s1 /\ do_calls cs s1 = Some s'.
Proof.
  cbn [run]. destruct (do_call c s) as [s1 |]; [| discriminate].
  intros Hrun. now exists s1.
Qed.

Lemma run_app_Some (cs1 cs2 : list call) (s s' : state) :
  do_calls (cs1 ++ cs2) s = Some s' ->
  exists s1, do_calls cs1 s = Some s1 /\ do_calls cs2 s1 = Some s'.
Proof.
  revert s. induction cs1 as [| c cs1 IH]; intros s Hrun.
  - now exists s.
  - change (((c :: cs1) ++ cs2)%list) with ((c :: (cs1 ++ cs2))%list) in Hrun.
    apply run_cons_Some in Hrun as (s1 & Hc & Hrun).
    destruct (IH s1 Hrun) as (s2 & Hcs1 & Hcs2).
    exists s2. split; [| exact Hcs2]. cbn [run]. now rewrite Hc.
Qed.

Local Ltac split_call :=
  unfold SetCutOverLockTimeoutSeconds, SetDefaultNumRetries,
    SetMaxLagMillisecondsThrottleThreshold, SetChunkSize, SetThrottled,
    MarkRowCopyStartTime, MarkRowCopyEndTime, MarkPointOfInterest,
    SetReplicationLagQuery, SetThrottleQuery, SetNiceRatio, ReadMaxLoad,
    ReadCriticalLoad, ReadThrottleControlReplicaKeys,
    AddThrottleControlReplicaKey, ReadConfigFile;
  cbv zeta;
  repeat (match goal with
          | |- context [let '(_, _) := ?p in _] => destruct p
          | |- context [match ?e with Some _ => _ | None => _ end] => destruct e
          | |- context [match ?l with [] => _ | _ :: _ => _ end] => destruct l
          | |- context [if ?a <? ?b then _ else _] => destruct (Z.ltb_spec a b)
          | |- context [if ?a >? ?b then _ else _] => destruct (Z.gtb_spec a b)
          | |- context [if ?b then _ else _] => destruct b
          end; cbn [fst snd]).

Local Ltac one_call c H :=
  destruct c; cbv beta iota delta [exec on_context] in H;
  [injection H as <- .. | | injection H as <-];
  [.. | destruct (ApplyCredentials _ _); [injection H as <- | discriminate H] |].

(** No call assigns the inspector pointer. *)
Lemma exec_InspectorConnectionConfig (c : call) (s s' : state) :
  do_call c s = Some s' ->
  InspectorConnectionConfig s'.1 = InspectorConnectionConfig s.1.
Proof.
  intros H. one_call c H; cbn [fst snd]; try reflexivity; split_call;
    reflexivity.
Qed.

(** Only [MarkRowCopyStartTime] assigns [RowCopyStartTime]. *)
Lemma exec_RowCopyStartTime (c : call) (s s' : state) :
  marks_start c = false -> do_call c s = Some s' ->
  RowCopyStartTime s'.1 = RowCopyStartTime s.1.
Proof.
  intros Hc H. one_call c H; cbn [fst snd]; try discriminate Hc;
    try reflexivity; split_call; reflexivity.
Qed.

(** Only [MarkRowCopyEndTime] assigns [RowCopyEndTime]. *)
Lemma exec_RowCopyEndTime (c : call) (s s' : state) :
  marks_end c = false -> do_call c s = Some s' ->
  RowCopyEndTime s'.1 = RowCopyEndTime s.1.
Proof.
  intros Hc H. one_call c H; cbn [fst snd]; try discriminate Hc;
    try reflexivity; split_call; reflexivity.
Qed.


Lemma exec_within_bounds (c : call) (s s' : state) :
  do_call c s = Some s' -> within_bounds s.1 -> within_bounds s'.1.
Proof.
  unfold within_bounds, MaxRetries.
  intros H (Hchunk & Hlag & Htimeout & Hretries).
  one_call c H; cbn [fst snd]; try (repeat split; assumption);
    split_call; cbn; lia.
Qed.

(** A property of the state that the calls allowed by [ok] keep is kept by
    a history of such calls. *)
Lemma run_keeps (P : state -> Prop) (ok : call -> bool) :
  (forall c s s', ok c = true -> do_call c s = Some s' -> P s -> P s') ->
  forall cs s s',
    forallb ok cs = true -> do_calls cs s = Some s' -> P s -> P s'.
Proof.
  intros Hstep. induction cs as [| c cs IH]; intros s s' Hok Hrun HP.
  - injection Hrun as <-. exact HP.
  - cbn in Hok. apply andb_prop in Hok as [Hc Hcs].
    apply run_cons_Some in Hrun as (s1 & Hexec & Hrun).
    apply (IH s1 s' Hcs Hrun). exact (Hstep c s s1 Hc Hexec HP).
Qed.

Lemma run_RowCopyStartTime (cs : list call) (s s' : state) :
  no_start cs -> do_calls cs s = Some s' ->
  RowCopyStartTime s'.1 = RowCopyStartTime s.1.
Proof.
  intros Hcs Hrun.
  apply (run_keeps (fun x => RowCopyStartTime x.1 = RowCopyStartTime s.1)
           (fun c => negb (marks_start c))) with (cs := cs) (s := s);
    [| exact Hcs | exact Hrun | reflexivity].
  intros c x x' Hc Hexec <-. apply negb_true_iff in Hc.
  now apply (exec_RowCopyStartTime c).
Qed.

Lemma run_RowCopyEndTime (cs : list call) (s s' : state) :
  no_end cs -> do_calls cs s = Some s' ->
  RowCopyEndTime s'.1 = RowCopyEndTime s.1.
Proof.
  intros Hcs Hrun.
  apply (run_keeps (fun x => RowCopyEndTime x.1 = RowCopyEndTime s.1)
           (fun c => negb (marks_end c))) with (cs := cs) (s := s);
    [| exact Hcs | exact Hrun | reflexivity].
  intros c x x' Hc Hexec <-. apply negb_true_iff in Hc.
  now apply (exec_RowCopyEndTime c).
Qed.


(** With a descriptor behind the inspector pointer no call panics, and the
    descriptor is still there after the call. *)
Lemma exec_wired (c : call) (s : state) :
  wired s -> exists s', do_call c s = Some s' /\ wired s'.
Proof.
  intros (l & Hl & [d Hd]).
  assert (Hcases : (exists s', do_call c s = Some s' /\ s'.2 = s.2) \/
                   c = CallApplyCredentials).
  { destruct c; cbv beta iota delta [exec on_context]; eauto. }
  destruct Hcases as [(s' & Hexec & Hstore) | ->].
  - exists s'. split; [exact Hexec |]. exists l.
    rewrite (exec_InspectorConnectionConfig c s s' Hexec), Hstore. eauto.
  - cbv beta iota delta [exec].
    rewrite (ApplyCredentials_lookup s.1 l d s.2 Hl Hd).
    eexists. split; [reflexivity |].
    exists l. split; [exact Hl |]. cbn [snd]. rewrite lookup_insert_eq. eauto.
Qed.

Lemma run_wired (cs : list call) (s : state) :
  wired s -> exists s', do_calls cs s = Some s' /\ wired s'.
Proof.
  revert s. induction cs as [| c cs IH]; intros s Hs.
  - now exists s.
  - destruct (exec_wired c s Hs) as (s1 & Hexec & Hs1).
    destruct (IH s1 Hs1) as (s' & Hrun & Hs').
    exists s'. split; [| exact Hs']. cbn [run]. now rewrite Hexec.
Qed.

Lemma init_state_wired : wired init_state.
Proof.
  exists 1%positive. split; [reflexivity |].
  exists mysql.NewConnectionConfig. reflexivity.
Qed.

Lemma Sub_grows (t0 now now' : time.Time) :
  monotonic now = monotonic t0 -> monotonic now' = monotonic t0 ->
  time.not_after now now' -> time.Sub now t0 <= time.Sub now' t0.
Proof.
  unfold monotonic, time.not_after, time.Sub.
  destruct (time.mono t0), (time.mono now), (time.mono now');
    try discriminate; intros _ _ Hle; apply saturate_monotone; lia.
Qed.

(** C7. [ElapsedRowCopyTime] returns zero as long as [MarkRowCopyStartTime]
    has not been called. Once row copy was started, at the reading [t0] of
    [time.Now()], and as long as [MarkRowCopyEndTime] has not been called,
    it returns the current time minus [t0], as [Sub] computes it (on the
    monotonic clock for the readings that [time.Now()] returns), which
    grows with the clock. Once [MarkRowCopyEndTime] was called, at the
    reading [t1], it returns [t1] minus [t0], whatever the current time.
    The histories are those of all calls that change the state, starting
    from the state that [init()] leaves; none of them panics. The clock
    never shows the zero instant of [time.Time]. *)
Theorem ElapsedRowCopyTime_phases :
  (forall (before : list call) (now : time.Time),
     no_start before ->
     exists s : state,
       do_calls before init_state = Some s /\
       ElapsedRowCopyTime now s.1 = 0) /\
  (forall (before during : list call) (t0 now : time.Time),
     no_end before -> no_start during -> no_end during ->
     time.IsZero t0 = false ->
     exists s : state,
       do_calls (before ++ CallMarkRowCopyStartTime t0 :: during) init_state
       = Some s /\
       ElapsedRowCopyTime now s.1 = time.Sub now t0 /\
       (forall now' : time.Time,
          monotonic now = monotonic t0 -> monotonic now' = monotonic t0 ->
          time.not_after now now' ->
          ElapsedRowCopyTime now s.1 <= ElapsedRowCopyTime now' s.1)) /\
  (forall (before during after : list call) (t0 t1 now : time.Time),
     no_start during -> no_start after -> no_end after ->
     time.IsZero t0 = false -> time.IsZero t1 = false ->
     exists s : state,
       do_calls (before ++ CallMarkRowCopyStartTime t0
                   :: during ++ CallMarkRowCopyEndTime t1 :: after) init_state
       = Some s /\
       ElapsedRowCopyTime now s.1 = time.Sub t1 t0).
Proof.
  split; [| split].
  - intros before now Hbefore.
    destruct (run_wired before init_state init_state_wired) as (s & Hrun & _).
    exists s. split; [exact Hrun |]. unfold ElapsedRowCopyTime.
    now rewrite (run_RowCopyStartTime before init_state s Hbefore Hrun).
  - intros before during t0 now Hbefore Hduring Hduring' Ht0.
    destruct (run_wired (before ++ CallMarkRowCopyStartTime t0 :: during)
                init_state init_state_wired) as (s & Hrun & _).
    exists s. split; [exact Hrun |].
    apply run_app_Some in Hrun as (s1 & Hrun1 & Hrun).
    apply run_cons_Some in Hrun as (s2 & Hexec & Hrun2).
    injection Hexec as <-.
    assert (Hstart : RowCopyStartTime s.1 = t0)
      by now rewrite (run_RowCopyStartTime during _ s Hduring Hrun2).
    assert (Hend : RowCopyEndTime s.1 = time.zero).
    { rewrite (run_RowCopyEndTime during _ s Hduring' Hrun2). cbn [fst snd].
      change (RowCopyEndTime (set_RowCopyStartTime t0 s1.1))
        with (RowCopyEndTime s1.1).
      now rewrite (run_RowCopyEndTime before init_state s1 Hbefore Hrun1). }
    assert (Hvalue : forall t, ElapsedRowCopyTime t s.1 = time.Sub t t0).
    { intros t. unfold ElapsedRowCopyTime. now rewrite Hstart, Hend, Ht0. }
    split; [apply Hvalue |].
    intros now' Hkind Hkind' Hlater. rewrite !Hvalue.
    now apply Sub_grows.
  - intros before during after t0 t1 now Hduring Hafter Hafter' Ht0 Ht1.
    destruct (run_wired (before ++ CallMarkRowCopyStartTime t0
                           :: during ++ CallMarkRowCopyEndTime t1 :: after)
                init_state init_state_wired) as (s & Hrun & _).
    exists s. split; [exact Hrun |].
    apply run_app_Some in Hrun as (s1 & _ & Hrun).
    apply run_cons_Some in Hrun as (s2 & Hexec & Hrun).
    injection Hexec as <-.
    apply run_app_Some in Hrun as (s3 & Hrun3 & Hrun).
    apply run_cons_Some in Hrun as (s4 & Hexec & Hrun4).
    injection Hexec as <-.
    assert (Hstart : RowCopyStartTime s.1 = t0).
    { rewrite (run_RowCopyStartTime after _ s Hafter Hrun4). cbn [fst snd].
      change (RowCopyStartTime (set_RowCopyEndTime t1 s3.1))
        with (RowCopyStartTime s3.1).
      now rewrite (run_RowCopyStartTime during _ s3 Hduring Hrun3). }
    assert (Hend : RowCopyEndTime s.1 = t1)
      by now rewrite (run_RowCopyEndTime after _ s Hafter' Hrun4).
    unfold ElapsedRowCopyTime. now rewrite Hstart, Hend, Ht0, Ht1.
Qed.

(** X2. Whatever calls of its methods are made on the context that
    [init()] creates, whatever their arguments, the calls return, and the
    chunk size stays in [100, 100000], the lag threshold at or above 1000,
    the cut-over lock timeout in [1, 10], and [MaxRetries] positive. *)
Theorem settings_within_bounds (cs : list call) :
  exists s : state,
    do_calls cs init_state = Some s /\ within_bounds s.1.
Proof.
  destruct (run_wired cs init_state init_state_wired) as (s & Hrun & _).
  exists s. split; [exact Hrun |].
  apply (run_keeps (fun x => within_bounds x.1) (fun _ => true))
    with (cs := cs) (s := init_state); [| | exact Hrun |].
  - intros c x x' _ Hexec. now apply (exec_within_bounds c).
  - clear Hrun. induction cs as [| c cs IH]; [reflexivity | exact IH].
  - unfold within_bounds. cbn. lia.
Qed.


End CallHistories.

(** Row copy read at [later]: before it started; started and not ended,
    where the monotonic clock decides; and ended. *)
Lemma ElapsedRowCopyTime_phases_example :
  (exists s : state,
     run ParseLoadMap no_replicas cnf_missing (env_of [])
       [CallSetChunkSize 500; CallApplyCredentials] init_state = Some s /\
     ElapsedRowCopyTime later s.1 = 0) /\
  (exists s : state,
     run ParseLoadMap no_replicas cnf_missing (env_of [])
       ([CallSetChunkSize 500]
          ++ CallMarkRowCopyStartTime started
          :: [CallSetThrottled true "lag"; CallMarkPointOfInterest started])
       init_state = Some s /\
     ElapsedRowCopyTime later s.1 = 10206015 /\
     ElapsedRowCopyTime ended s.1 <= ElapsedRowCopyTime later s.1) /\
  (exists s : state,
     run ParseLoadMap no_replicas cnf_missing (env_of [])
       ([CallSetChunkSize 500]
          ++ CallMarkRowCopyStartTime started
          :: [CallSetThrottled true "lag"]
          ++ CallMarkRowCopyEndTime ended :: [CallSetThrottled false ""])
       init_state = Some s /\
     ElapsedRowCopyTime later s.1 = 8000012).
Proof.
  pose proof (ElapsedRowCopyTime_phases ParseLoadMap no_replicas cnf_missing
                (env_of [])) as (Hbefore & Hduring & Hafter).
  split; [| split].
  - apply Hbefore. reflexivity.
  - destruct (Hduring [CallSetChunkSize 500]
                [CallSetThrottled true "lag"; CallMarkPointOfInterest started]
                started later eq_refl eq_refl eq_refl eq_refl)
      as (s & Hrun & Hvalue & _).
    destruct (Hduring [CallSetChunkSize 500]
                [CallSetThrottled true "lag"; CallMarkPointOfInterest started]
                started ended eq_refl eq_refl eq_refl eq_refl)
      as (s' & Hrun' & _ & Hgrows).
    assert (Hsame : s' = s) by congruence. subst s'.
    exists s. split; [exact Hrun |]. split; [exact Hvalue |].
    apply Hgrows; [reflexivity | reflexivity |].
    unfold time.not_after. cbn. lia.
  - apply (Hafter [CallSetChunkSize 500] [CallSetThrottled true "lag"]
             [CallSetThrottled false ""] started ended later);
      reflexivity.
Defined.


(** ** Row-copy timing *)

(** X6. As long as the clock has not run backwards, that is, the start is
    not after the current time nor after the recorded end, each on the
    clock that [Sub] compares the two readings on, [ElapsedRowCopyTime] is
    not negative, and it never exceeds the largest duration. *)
Theorem ElapsedRowCopyTime_not_negative (now : time.Time)
    (this : MigrationContext) :
  time.not_after (RowCopyStartTime this) now ->
  time.IsZero (RowCopyEndTime this) = true
    \/ time.not_after (RowCopyStartTime this) (RowCopyEndTime this) ->
  0 <= ElapsedRowCopyTime now this <= time.maxDuration.
Proof.
  assert (Hsub : forall u t, time.not_after u t ->
                   0 <= time.Sub t u <= time.maxDuration).
  { unfold time.not_after, time.Sub. intros u t.
    destruct (time.mono t), (time.mono u); intros Hle;
      apply saturate_sign; lia. }
  intros Hnow Hend. unfold ElapsedRowCopyTime.
  destruct (time.IsZero (RowCopyStartTime this));
    [unfold time.maxDuration; lia |].
  destruct (time.IsZero (RowCopyEndTime this)) eqn:Hzero; [now apply Hsub |].
  destruct Hend as [Hend | Hend]; [discriminate | now apply Hsub].
Qed.

(** Started at [started], ended at [ended], read at [later]. *)
Lemma ElapsedRowCopyTime_not_negative_example :
  0 <= ElapsedRowCopyTime later
         (set_RowCopyEndTime ended (set_RowCopyStartTime started context))
    <= time.maxDuration.
Proof.
  apply (ElapsedRowCopyTime_not_negative later
           (set_RowCopyEndTime ended (set_RowCopyStartTime started context))).
  - unfold time.not_after. cbn. lia.
  - right. unfold time.not_after. cbn. lia.
Defined.

(** ** Configuration file *)

Lemma capture_cons (c : ascii) (r : string) :
  regexp.capture (String c r)
  = if Ascii.eqb c regexp.LF then None
    else match regexp.capture r with
         | Some g => Some (String c g)
         | None => if Ascii.eqb c "}" then Some EmptyString else None
         end.
Proof. reflexivity. Qed.

Lemma one_line_cons (c : ascii) (r : string) :
  regexp.one_line (String c r)
  = negb (Ascii.eqb c regexp.LF) && regexp.one_line r.
Proof. reflexivity. Qed.

Lemma capture_literal (name : string) :
  regexp.one_line name = true ->
  regexp.capture (name +:+ "}") = Some name.
Proof.
  induction name as [| c name IH]; intros Hline; [reflexivity |].
  rewrite one_line_cons in Hline. apply andb_prop in Hline as [Hc Hname].
  apply negb_true_iff in Hc.
  change (String c name +:+ "}") with (String c (name +:+ "}")).
  rewrite capture_cons, Hc, (IH Hname). reflexivity.
Qed.

(** On a text of the literal form [${NAME}] the pattern matches the whole
    text and its group holds [NAME]. *)
Lemma FindStringSubmatch_literal (name : string) :
  regexp.one_line name = true ->
  regexp.FindStringSubmatch ("${" +:+ name +:+ "}")
  = ["${" +:+ name +:+ "}"; name].
Proof.
  intros Hline. unfold regexp.FindStringSubmatch.
  assert (Hsearch : regexp.search ("${" +:+ name +:+ "}") = Some name).
  { change ("${" +:+ name +:+ "}")
      with (String "$" (String "{" (name +:+ "}"))).
    unfold regexp.search; fold regexp.search.
    change (regexp.match_here (String "$" (String "{" (name +:+ "}"))))
      with (regexp.capture (name +:+ "}")).
    now rewrite capture_literal. }
  now rewrite Hsearch.
Qed.

(** A match is an occurrence of the pattern: the text holds a dollar sign,
    an opening brace, the captured text, free of line feeds, and a closing
    brace. *)
Lemma capture_sound (s g : string) :
  regexp.capture s = Some g ->
  regexp.one_line g = true /\ exists post, s = g +:+ "}" +:+ post.
Proof.
  revert g. induction s as [| c s IH]; intros g; [discriminate |].
  rewrite capture_cons.
  destruct (Ascii.eqb c regexp.LF) eqn:Hc; [discriminate |].
  destruct (regexp.capture s) as [g' |].
  - intros [= <-]. destruct (IH g' eq_refl) as (Hline & post & ->).
    rewrite one_line_cons, Hc, Hline. split; [reflexivity | now exists post].
  - destruct (Ascii.eqb_spec c "}") as [-> |]; [| discriminate].
    intros [= <-]. split; [reflexivity | now exists s].
Qed.

Lemma match_here_sound (s g : string) :
  regexp.match_here s = Some g ->
  exists r, s = String "$" (String "{" r) /\ regexp.capture r = Some g.
Proof.
  unfold regexp.match_here.
  destruct s as [| c s]; [discriminate |].
  destruct (Ascii.eqb_spec c "$") as [-> | Hc].
  - destruct s as [| c' s]; [discriminate |].
    destruct (Ascii.eqb_spec c' "{") as [-> | Hc'].
    + intros Hg. now exists s.
    + destruct c' as [[] [] [] [] [] [] [] []]; try discriminate;
        now contradiction Hc'.
  - destruct c as [[] [] [] [] [] [] [] []]; try discriminate;
      now contradiction Hc.
Qed.

Lemma search_sound (s g : string) :
  regexp.search s = Some g ->
  regexp.one_line g = true /\
  exists pre post, s = pre +:+ "${" +:+ g +:+ "}" +:+ post.
Proof.
  induction s as [| c s IH].
  - cbn. discriminate.
  - unfold regexp.search; fold regexp.search.
    destruct (regexp.match_here (String c s)) as [g' |] eqn:Hhere.
    + intros [= <-].
      apply match_here_sound in Hhere as (r & Hs & Hcapture).
      apply capture_sound in Hcapture as (Hline & post & ->).
      rewrite Hs. split; [exact Hline |]. now exists "", post.
    + intros Hs. destruct (IH Hs) as (Hline & pre & post & ->).
      split; [exact Hline |]. now exists (String c pre), post.
Qed.

(** C9, as worded, fails: with a config file whose user is [${DB_USER}] and
    whose password is [${DB_PASS}], and an environment in which neither
    variable is set, [ReadConfigFile] returns no error; it stores the empty
    user and the empty password. *)
Lemma ReadConfigFile_accepts_empty_variable :
  ~ empty_variable_is_an_error cnf_from_env (env_of []) with_conf.
Proof.
  intros Hclaim.
  destruct (Hclaim (with_Client {| User := "${DB_USER}"; Password := "${DB_PASS}" |}
                      (config with_conf))
                   "DB_USER" eq_refl (or_introl eq_refl) eq_refl) as [e He].
  vm_compute in He. discriminate He.
Qed.

Section ConfigFileProperties.

Variable ReadFileInto : ContextConfig -> string -> error * ContextConfig.
Variable Getenv : string -> string.

Local Abbreviation read := (ReadConfigFile ReadFileInto Getenv).

(** C9, amended. [ReadConfigFile] returns an error only when a config file
    is configured and reading or parsing it fails: the error is the
    parser's, and the context is as before but for the config structure,
    which is as the parser left it. When the file is read, no error is
    returned, and a user or password of the literal form [${NAME}], with
    [NAME] free of line feeds, becomes the value that the environment
    variable [NAME] has when [ReadConfigFile] runs, the empty string when
    the variable is empty or not set. *)
Theorem ReadConfigFile_outcome (this : MigrationContext) :
  (ConfigFile this = "" -> read this = (None, this)) /\
  (forall (e : string) (cfg : ContextConfig),
     ConfigFile this <> "" ->
     ReadFileInto (config this) (ConfigFile this) = (Some e, cfg) ->
     read this = (Some e, set_config cfg this)) /\
  (forall cfg : ContextConfig,
     ConfigFile this <> "" ->
     ReadFileInto (config this) (ConfigFile this) = (None, cfg) ->
     returned_error (read this).1 = None /\
     (forall name : string,
        regexp.one_line name = true ->
        User (Client cfg) = "${" +:+ name +:+ "}" ->
        User (Client (config (read this).2)) = Getenv name) /\
     (forall name : string,
        regexp.one_line name = true ->
        Password (Client cfg) = "${" +:+ name +:+ "}" ->
        Password (Client (config (read this).2)) = Getenv name)).
Proof.
  unfold ReadConfigFile. split; [| split].
  - intros Hfile. now rewrite Hfile.
  - intros e cfg Hfile Hread.
    apply String.eqb_neq in Hfile. now rewrite Hfile, Hread.
  - intros cfg Hfile Hread.
    apply String.eqb_neq in Hfile. rewrite Hfile, Hread.
    change (config (set_config cfg this)) with cfg.
    split; [reflexivity | split].
    + intros name Hline Huser.
      rewrite Huser, (FindStringSubmatch_literal name Hline).
      cbv zeta.
      destruct (regexp.FindStringSubmatch _) as [| ? [| ? ?]]; reflexivity.
    + intros name Hline Hpassword.
      cbv zeta.
      assert (Hkept : forall that,
                 Password (Client (config that)) = Password (Client cfg) ->
                 Password (Client (config
                   (match regexp.FindStringSubmatch
                            (Password (Client (config that))) with
                    | _ :: name0 :: _ => set_Client_Password (Getenv name0) that
                    | _ => that
                    end))) = Getenv name).
      { intros that ->.
        now rewrite Hpassword, (FindStringSubmatch_literal name Hline). }
      destruct (regexp.FindStringSubmatch (User (Client cfg)))
        as [| ? [| ? ?]]; now apply Hkept.
Qed.

End ConfigFileProperties.

(** No file configured, a missing file, and a file read with both
    variables set. *)
Lemma ReadConfigFile_outcome_examples :
  ReadConfigFile cnf_from_env (env_of [("DB_USER", "ghost"); ("DB_PASS", "s3cret")])
    context = (None, context) /\
  ReadConfigFile cnf_missing (env_of []) with_conf
  = (Some "open /etc/gh-ost.cnf: no such file or directory", with_conf) /\
  User (Client (config
    (ReadConfigFile cnf_from_env
       (env_of [("DB_USER", "ghost"); ("DB_PASS", "s3cret")]) with_conf).2))
  = "ghost" /\
  Password (Client (config
    (ReadConfigFile cnf_from_env
       (env_of [("DB_USER", "ghost"); ("DB_PASS", "s3cret")]) with_conf).2))
  = "s3cret".
Proof.
  split; [| split; [| split]].
  - apply (ReadConfigFile_outcome cnf_from_env
             (env_of [("DB_USER", "ghost"); ("DB_PASS", "s3cret")]) context).
    reflexivity.
  - apply (proj1 (proj2 (ReadConfigFile_outcome cnf_missing (env_of []) with_conf))
             "open /etc/gh-ost.cnf: no such file or directory"
             (config with_conf)); [discriminate | reflexivity].
  - apply (proj1 (proj2 (proj2 (proj2
             (ReadConfigFile_outcome cnf_from_env
                (env_of [("DB_USER", "ghost"); ("DB_PASS", "s3cret")]) with_conf))
             (with_Client {| User := "${DB_USER}"; Password := "${DB_PASS}" |}
                (config with_conf))
             ltac:(discriminate) eq_refl)) "DB_USER" eq_refl eq_refl).
  - apply (proj2 (proj2 (proj2 (proj2
             (ReadConfigFile_outcome cnf_from_env
                (env_of [("DB_USER", "ghost"); ("DB_PASS", "s3cret")]) with_conf))
             (with_Client {| User := "${DB_USER}"; Password := "${DB_PASS}" |}
                (config with_conf))
             ltac:(discriminate) eq_refl)) "DB_PASS" eq_refl eq_refl).
Defined.

(** * Further properties of the context *)

(** ** Clamped settings *)

(** X1. [SetMaxLagMillisecondsThrottleThreshold v] stores [max 1000 v],
    so never less than one second, returns no error and changes no other
    field. *)
Theorem SetMaxLagMillisecondsThrottleThreshold_floor (v : Z)
    (this : MigrationContext) :
  MaxLagMillisecondsThrottleThreshold
    (SetMaxLagMillisecondsThrottleThreshold v this).2 = Z.max 1000 v /\
  1000 <= MaxLagMillisecondsThrottleThreshold
            (SetMaxLagMillisecondsThrottleThreshold v this).2 /\
  (SetMaxLagMillisecondsThrottleThreshold v this).2
  = set_MaxLagMillisecondsThrottleThreshold (Z.max 1000 v) this.
Proof.
  unfold SetMaxLagMillisecondsThrottleThreshold. cbv zeta.
  assert (Hfloor : (if v <? 1000 then 1000 else v) = Z.max 1000 v)
    by (destruct (Z.ltb_spec v 1000); lia).
  rewrite Hfloor. cbn. repeat split. lia.
Qed.

(** ** Load maps *)

Section TwoLoadMaps.

Variable parseLoadMap : string -> LoadMap * error.

(** X4. Whatever the parser, [ReadCriticalLoad] either puts the parsed map
    in place of the critical-load map and keeps every other field, the
    max-load map among them, or returns the parser's error and leaves the
    context as it was. *)
Theorem ReadCriticalLoad_all_or_nothing (s : string) (this : MigrationContext) :
  (exists m, parseLoadMap s = (m, None) /\
     ReadCriticalLoad parseLoadMap s this = (None, set_criticalLoad m this) /\
     GetCriticalLoad (ReadCriticalLoad parseLoadMap s this).2 = m /\
     GetMaxLoad (ReadCriticalLoad parseLoadMap s this).2 = GetMaxLoad this) \/
  (exists m e, parseLoadMap s = (m, Some e) /\
     ReadCriticalLoad parseLoadMap s this = (Some e, this)).
Proof.
  unfold ReadCriticalLoad. destruct (parseLoadMap s) as [m [e |]].
  - right. now exists m, e.
  - left. exists m. repeat split.
Qed.

(** X5. [ReadMaxLoad] and [ReadCriticalLoad] do not interfere: made in
    either order, the two calls return the same errors and leave the same
    context. *)
Theorem ReadMaxLoad_ReadCriticalLoad_commute (s1 s2 : string)
    (this : MigrationContext) :
  let max_first := ReadMaxLoad parseLoadMap s1 this in
  let critical_first := ReadCriticalLoad parseLoadMap s2 this in
  (ReadCriticalLoad parseLoadMap s2 max_first.2).2
  = (ReadMaxLoad parseLoadMap s1 critical_first.2).2 /\
  (ReadCriticalLoad parseLoadMap s2 max_first.2).1 = critical_first.1 /\
  (ReadMaxLoad parseLoadMap s1 critical_first.2).1 = max_first.1.
Proof.
  cbv zeta. unfold ReadMaxLoad, ReadCriticalLoad.
  destruct (parseLoadMap s1) as [m1 [e1 |]], (parseLoadMap s2) as [m2 [e2 |]];
    repeat split.
Qed.

End TwoLoadMaps.

(** ** Derived table names *)

Lemma append_cancel_l (t x y : string) : t +:+ x = t +:+ y -> x = y.
Proof.
  induction t as [| c t IH]; [trivial |].
  change (String c t +:+ x) with (String c (t +:+ x)).
  change (String c t +:+ y) with (String c (t +:+ y)).
  intros [= H]. now apply IH.
Qed.

Lemma length_append (s t : string) :
  String.length (s +:+ t) = (String.length s + String.length t)%nat.
Proof.
  induction s as [| c s IH]; [reflexivity |].
  change (String c s +:+ t) with (String c (s +:+ t)).
  cbn. now rewrite IH.
Qed.

Lemma wrapped_differs (t suffix : string) : "_" +:+ t +:+ suffix <> t.
Proof.
  intros Heq. apply (f_equal String.length) in Heq.
  change ("_" +:+ t +:+ suffix) with (String "_" (t +:+ suffix)) in Heq.
  cbn in Heq. rewrite length_append in Heq. lia.
Qed.

Lemma wrapped_inj (t x y : string) :
  "_" +:+ t +:+ x = "_" +:+ t +:+ y -> x = y.
Proof.
  change ("_" +:+ t +:+ x) with (String "_" (t +:+ x)).
  change ("_" +:+ t +:+ y) with (String "_" (t +:+ y)).
  intros [= H]. now apply append_cancel_l in H.
Qed.

(** X7. The derived names do not collide: the old table, the changelog
    table and, unless [Migrate] names it freely, the ghost table all differ
    from the original table and from one another, whatever the flags. *)
Theorem derived_table_names_distinct (this : MigrationContext) :
  GetOldTableName this <> OriginalTableName this /\
  GetChangelogTableName this <> OriginalTableName this /\
  GetOldTableName this <> GetChangelogTableName this /\
  (Migrate this = false ->
     GetGhostTableName this <> OriginalTableName this /\
     GetGhostTableName this <> GetOldTableName this /\
     GetGhostTableName this <> GetChangelogTableName this).
Proof.
  unfold GetOldTableName, GetChangelogTableName, GetGhostTableName.
  repeat split.
  - destruct (TestOnReplica this), (MigrateOnReplica this);
      apply wrapped_differs.
  - apply wrapped_differs.
  - destruct (TestOnReplica this), (MigrateOnReplica this);
      intros H; apply wrapped_inj in H; discriminate H.
  - rewrite H. apply wrapped_differs.
  - rewrite H. destruct (TestOnReplica this), (MigrateOnReplica this);
      intros H'; apply wrapped_inj in H'; discriminate H'.
  - rewrite H. intros H'. apply wrapped_inj in H'. discriminate H'.
Qed.

(** The names derived for the table [orders] are four different names. *)
Lemma derived_table_names_distinct_orders :
  GetGhostTableName orders <> "orders" /\
  GetGhostTableName orders <> GetOldTableName orders /\
  GetGhostTableName orders <> GetChangelogTableName orders.
Proof.
  exact (proj2 (proj2 (proj2 (derived_table_names_distinct orders))) eq_refl).
Defined.

(** ** Credentials and the store of connection descriptors *)

(** The three ways a call of [ApplyCredentials] can go. *)
Lemma ApplyCredentials_cases (this : MigrationContext) (σ : conn_store) :
  (exists l c, InspectorConnectionConfig this = Some l /\ σ !! l = Some c /\
     ApplyCredentials this σ = Some (<[l := resolved this c]> σ)) \/
  ApplyCredentials this σ = None \/
  ApplyCredentials this σ = Some σ.
Proof.
  destruct (InspectorConnectionConfig this) as [l |] eqn:Hl.
  - destruct (σ !! l) as [c |] eqn:Hc.
    + left. exists l, c. auto using ApplyCredentials_lookup.
    + right. apply ApplyCredentials_no_descriptor.
      * intros u. rewrite Hl. unfold assign_User. cbn. now rewrite Hc.
      * intros w. rewrite Hl. unfold assign_Password. cbn. now rewrite Hc.
  - right. apply ApplyCredentials_no_descriptor; intros; now rewrite Hl.
Qed.

(** X8. [ApplyCredentials] writes through the inspector pointer only: a
    descriptor at any other address is left as it was, no descriptor is
    added or dropped, and no descriptor changes its instance key. *)
Theorem ApplyCredentials_frame (this : MigrationContext) (σ σ' : conn_store) :
  ApplyCredentials this σ = Some σ' ->
  (forall l, InspectorConnectionConfig this <> Some l -> σ' !! l = σ !! l) /\
  dom σ' = dom σ /\
  (forall l, mysql.Key <$> σ' !! l = mysql.Key <$> σ !! l).
Proof.
  intros Happly.
  destruct (ApplyCredentials_cases this σ)
    as [(l & c & Hl & Hc & Hstore) | [Hnone | Hsame]].
  - rewrite Hstore in Happly. injection Happly as <-.
    split; [| split].
    + intros l' Hl'. apply lookup_insert_ne. congruence.
    + apply dom_insert_lookup_L. now rewrite Hc.
    + intros l'. destruct (decide (l = l')) as [<- | Hne].
      * now rewrite lookup_insert_eq, Hc.
      * now rewrite lookup_insert_ne.
  - congruence.
  - rewrite Hsame in Happly. injection Happly as <-. auto.
Qed.

(** On the store that [init()] creates, with a CLI user: the applier
    descriptor, at address 2, is not written. *)
Lemma ApplyCredentials_frame_example :
  exists σ', ApplyCredentials (with_credentials "" "" "cliuser" "") init_store
             = Some σ' /\
             σ' !! 2%positive = Some mysql.NewConnectionConfig.
Proof.
  pose proof (ApplyCredentials_lookup (with_credentials "" "" "cliuser" "")
                1%positive mysql.NewConnectionConfig init_store eq_refl eq_refl)
    as Happly.
  eexists. split; [exact Happly |].
  etrans; [| reflexivity].
  apply (proj1 (ApplyCredentials_frame _ _ _ Happly)). discriminate.
Defined.

(** X9. When the applier pointer is the inspector pointer, as when the
    migration runs on one instance with one descriptor, the credentials
    that [ApplyCredentials] resolves are the ones read through the applier
    pointer as well; when the two pointers differ, what the applier pointer
    reads is unchanged. *)
Theorem ApplyCredentials_applier (this : MigrationContext) (σ σ' : conn_store)
    (l a : loc) (c : mysql.ConnectionConfig) :
  InspectorConnectionConfig this = Some l ->
  ApplierConnectionConfig this = Some a ->
  σ !! l = Some c ->
  ApplyCredentials this σ = Some σ' ->
  (a = l -> σ' !! a = Some (resolved this c)) /\
  (a <> l -> σ' !! a = σ !! a).
Proof.
  intros Hl Ha Hc Happly.
  rewrite (ApplyCredentials_lookup this l c σ Hl Hc) in Happly.
  injection Happly as <-. split.
  - intros ->. apply lookup_insert_eq.
  - intros Hne. now apply lookup_insert_ne.
Qed.

(** With one descriptor for both connections the applier pointer reads the
    CLI credentials; with two descriptors it reads what it read before. *)
Lemma ApplyCredentials_applier_example :
  (exists σ' c', ApplyCredentials single_descriptor init_store = Some σ' /\
     σ' !! 1%positive = Some c' /\ mysql.User c' = "cliuser") /\
  (exists σ', ApplyCredentials (with_credentials "" "" "cliuser" "clipass")
                init_store = Some σ' /\
     σ' !! 2%positive = Some mysql.NewConnectionConfig).
Proof.
  split.
  - pose proof (ApplyCredentials_lookup single_descriptor 1%positive
                  mysql.NewConnectionConfig init_store eq_refl eq_refl)
      as Happly.
    eexists _, _. split; [exact Happly |]. split.
    + apply (proj1 (ApplyCredentials_applier single_descriptor init_store _
                      1%positive 1%positive mysql.NewConnectionConfig
                      eq_refl eq_refl eq_refl Happly) eq_refl).
    + reflexivity.
  - pose proof (ApplyCredentials_lookup
                  (with_credentials "" "" "cliuser" "clipass") 1%positive
                  mysql.NewConnectionConfig init_store eq_refl eq_refl)
      as Happly.
    eexists. split; [exact Happly |].
    etrans; [| reflexivity].
    apply (proj2 (ApplyCredentials_applier
                    (with_credentials "" "" "cliuser" "clipass") init_store _
                    1%positive 2%positive mysql.NewConnectionConfig
                    eq_refl eq_refl eq_refl Happly)).
    discriminate.
Defined.

(** ** The pattern for environment variables *)

Lemma append_cons (c : ascii) (s t : string) :
  String c s +:+ t = String c (s +:+ t).
Proof. reflexivity. Qed.

Lemma search_cons (c : ascii) (r : string) :
  regexp.search (String c r)
  = match regexp.match_here (String c r) with
    | Some g => Some g
    | None => regexp.search r
    end.
Proof. reflexivity. Qed.

Lemma match_here_other (c : ascii) (r : string) :
  Ascii.eqb c "$" = false -> regexp.match_here (String c r) = None.
Proof.
  destruct c as [[] [] [] [] [] [] [] []]; try reflexivity; discriminate.
Qed.

Lemma search_skip (pre s : string) :
  mentions "$" pre = false -> regexp.search (pre +:+ s) = regexp.search s.
Proof.
  induction pre as [| c pre IH]; [reflexivity |].
  cbn [mentions]. intros Hpre. apply orb_false_elim in Hpre as [Hc Hpre].
  rewrite append_cons, search_cons, (match_here_other c _ Hc). now apply IH.
Qed.

Lemma search_no_dollar (s : string) :
  mentions "$" s = false -> regexp.search s = None.
Proof.
  induction s as [| c s IH]; [reflexivity |].
  cbn [mentions]. intros Hs. apply orb_false_elim in Hs as [Hc Hs].
  rewrite search_cons, (match_here_other c _ Hc). now apply IH.
Qed.

Lemma capture_no_brace (s : string) :
  mentions "}" s = false -> regexp.capture s = None.
Proof.
  induction s as [| c s IH]; [reflexivity |].
  cbn [mentions]. intros Hs. apply orb_false_elim in Hs as [Hc Hs].
  rewrite capture_cons, (IH Hs), Hc. now destruct (Ascii.eqb c regexp.LF).
Qed.

Lemma capture_between (name post : string) :
  regexp.one_line name = true -> mentions "}" post = false ->
  regexp.capture (name +:+ "}" +:+ post) = Some name.
Proof.
  intros Hline Hpost. induction name as [| c name IH].
  - change ("" +:+ "}" +:+ post) with (String "}" post).
    rewrite capture_cons, (capture_no_brace post Hpost). reflexivity.
  - rewrite one_line_cons in Hline. apply andb_prop in Hline as [Hc Hname].
    apply negb_true_iff in Hc.
    rewrite append_cons, capture_cons, Hc, (IH Hname). reflexivity.
Qed.

Lemma capture_complete (g post : string) :
  regexp.one_line g = true ->
  is_Some (regexp.capture (g +:+ "}" +:+ post)).
Proof.
  intros Hline. induction g as [| c g IH].
  - change ("" +:+ "}" +:+ post) with (String "}" post).
    rewrite capture_cons. cbn. destruct (regexp.capture post); eauto.
  - rewrite one_line_cons in Hline. apply andb_prop in Hline as [Hc Hg].
    apply negb_true_iff in Hc.
    rewrite append_cons, capture_cons, Hc.
    destruct (IH Hg) as [g' ->]. eauto.
Qed.

Lemma search_complete (pre g post : string) :
  regexp.one_line g = true ->
  is_Some (regexp.search (pre +:+ "${" +:+ g +:+ "}" +:+ post)).
Proof.
  intros Hline. induction pre as [| c pre IH].
  - change ("" +:+ "${" +:+ g +:+ "}" +:+ post)
      with (String "$" (String "{" (g +:+ "}" +:+ post))).
    rewrite search_cons.
    change (regexp.match_here (String "$" (String "{" (g +:+ "}" +:+ post))))
      with (regexp.capture (g +:+ "}" +:+ post)).
    destruct (capture_complete g post Hline) as [g' ->]. eauto.
  - rewrite append_cons, search_cons.
    destruct (regexp.match_here _); [eauto | exact IH].
Qed.

(** X12. [envVariableRegexp] matches exactly the texts in which a dollar
    sign and an opening brace are followed, before any line feed, by a
    closing brace. On such a text [FindStringSubmatch] returns two strings,
    the match and its group, and the match is the group between [${] and
    [}], taken from the text; on any other text it returns [nil]. So the
    test [len(submatch) > 1] is the test for a match. *)
Theorem FindStringSubmatch_occurrence (s : string) :
  (forall pre g post : string,
     regexp.one_line g = true ->
     s = pre +:+ "${" +:+ g +:+ "}" +:+ post ->
     exists g' : string,
       regexp.FindStringSubmatch s = ["${" +:+ g' +:+ "}"; g']) /\
  (forall submatch : list string,
     regexp.FindStringSubmatch s = submatch ->
     submatch = [] \/
     exists g pre post : string,
       submatch = ["${" +:+ g +:+ "}"; g] /\
       regexp.one_line g = true /\
       s = pre +:+ "${" +:+ g +:+ "}" +:+ post).
Proof.
  unfold regexp.FindStringSubmatch. split.
  - intros pre g post Hline ->.
    destruct (search_complete pre g post Hline) as [g' ->]. eauto.
  - intros submatch <-.
    destruct (regexp.search s) as [g |] eqn:Hsearch; [right | now left].
    apply search_sound in Hsearch as (Hline & pre & post & Hs).
    now exists g, pre, post.
Qed.

(** A value with text around the variable. *)
Lemma FindStringSubmatch_occurrence_example :
  exists g' : string,
    regexp.FindStringSubmatch "user-${DB_USER}-rw" = ["${" +:+ g' +:+ "}"; g'].
Proof.
  apply (proj1 (FindStringSubmatch_occurrence "user-${DB_USER}-rw")
           "user-" "DB_USER" "-rw"); reflexivity.
Defined.

(** ** Configuration file and credentials *)

Lemma FindStringSubmatch_no_dollar (s : string) :
  mentions "$" s = false -> regexp.FindStringSubmatch s = [].
Proof.
  intros Hs. unfold regexp.FindStringSubmatch.
  now rewrite (search_no_dollar s Hs).
Qed.

Lemma FindStringSubmatch_embedded (pre name post : string) :
  mentions "$" pre = false -> regexp.one_line name = true ->
  mentions "}" post = false ->
  regexp.FindStringSubmatch (pre +:+ "${" +:+ name +:+ "}" +:+ post)
  = ["${" +:+ name +:+ "}"; name].
Proof.
  intros Hpre Hline Hpost. unfold regexp.FindStringSubmatch.
  rewrite (search_skip pre _ Hpre).
  change ("${" +:+ name +:+ "}" +:+ post)
    with (String "$" (String "{" (name +:+ "}" +:+ post))).
  rewrite search_cons.
  change (regexp.match_here (String "$" (String "{" (name +:+ "}" +:+ post))))
    with (regexp.capture (name +:+ "}" +:+ post)).
  now rewrite (capture_between name post Hline Hpost).
Qed.

Section ConfigFileAndCredentials.

Variable ReadFileInto : ContextConfig -> string -> error * ContextConfig.
Variable Getenv : string -> string.

Local Abbreviation load := (ReadConfigFile ReadFileInto Getenv).

(** The user and the password that [ReadConfigFile] leaves, given the
    config structure [cfg] that the parser delivered. *)
Lemma ReadConfigFile_read (this : MigrationContext) (cfg : ContextConfig) :
  ConfigFile this <> "" ->
  ReadFileInto (config this) (ConfigFile this) = (None, cfg) ->
  (load this).1 = None /\
  (load this).2 = set_config (config (load this).2) this /\
  Osc (config (load this).2) = Osc cfg /\
  User (Client (config (load this).2))
  = match regexp.FindStringSubmatch (User (Client cfg)) with
    | _ :: name :: _ => Getenv name
    | _ => User (Client cfg)
    end /\
  Password (Client (config (load this).2))
  = match regexp.FindStringSubmatch (Password (Client cfg)) with
    | _ :: name :: _ => Getenv name
    | _ => Password (Client cfg)
    end.
Proof.
  intros Hfile Hread. unfold ReadConfigFile.
  apply String.eqb_neq in Hfile. rewrite Hfile, Hread. cbv zeta.
  change (config (set_config cfg this)) with cfg.
  destruct (regexp.FindStringSubmatch (User (Client cfg))) as [| ? [| ? ?]];
    cbn [fst snd];
    match goal with
    | |- context [regexp.FindStringSubmatch (Password (Client (config ?that)))] =>
        change (Password (Client (config that))) with (Password (Client cfg))
    end;
    destruct (regexp.FindStringSubmatch (Password (Client cfg)))
      as [| ? [| ? ?]];
    repeat split.
Qed.

(** X13. [ReadConfigFile] assigns nothing but the [config] field of the
    context, whether it succeeds or fails; and when the file is read, the
    options section of [config] is as the parser delivered it. *)
Theorem ReadConfigFile_frame (this : MigrationContext) :
  (load this).2 = set_config (config (load this).2) this /\
  (forall cfg : ContextConfig,
     ConfigFile this <> "" ->
     ReadFileInto (config this) (ConfigFile this) = (None, cfg) ->
     Osc (config (load this).2) = Osc cfg).
Proof.
  split.
  - destruct (String.eqb_spec (ConfigFile this) "") as [Hfile | Hfile].
    + unfold ReadConfigFile. apply String.eqb_eq in Hfile. rewrite Hfile.
      now destruct this.
    + destruct (ReadFileInto (config this) (ConfigFile this))
        as [[e |] cfg] eqn:Hread.
      * unfold ReadConfigFile. apply String.eqb_neq in Hfile.
        now rewrite Hfile, Hread.
      * apply (ReadConfigFile_read this cfg Hfile Hread).
  - intros cfg Hfile Hread. apply (ReadConfigFile_read this cfg Hfile Hread).
Qed.

(** X14. The pattern is not anchored: when a config-file user or password
    holds [${NAME}] with other text around it (no dollar sign before, no
    closing brace after, no line feed in [NAME]), the whole value, the
    surrounding text included, is replaced by the value of the variable
    [NAME]. *)
Theorem ReadConfigFile_replaces_whole_value (this : MigrationContext)
    (cfg : ContextConfig) (pre name post : string) :
  ConfigFile this <> "" ->
  ReadFileInto (config this) (ConfigFile this) = (None, cfg) ->
  mentions "$" pre = false -> regexp.one_line name = true ->
  mentions "}" post = false ->
  (User (Client cfg) = pre +:+ "${" +:+ name +:+ "}" +:+ post ->
     User (Client (config (load this).2)) = Getenv name) /\
  (Password (Client cfg) = pre +:+ "${" +:+ name +:+ "}" +:+ post ->
     Password (Client (config (load this).2)) = Getenv name).
Proof.
  intros Hfile Hread Hpre Hline Hpost.
  destruct (ReadConfigFile_read this cfg Hfile Hread)
    as (_ & _ & _ & Huser & Hpassword).
  split; intros Hvalue.
  - rewrite Huser, Hvalue.
    now rewrite (FindStringSubmatch_embedded pre name post Hpre Hline Hpost).
  - rewrite Hpassword, Hvalue.
    now rewrite (FindStringSubmatch_embedded pre name post Hpre Hline Hpost).
Qed.

(** X15. A config-file user or password without a dollar sign is kept as
    the parser delivered it; the environment is not consulted for it. *)
Theorem ReadConfigFile_keeps_plain_value (this : MigrationContext)
    (cfg : ContextConfig) :
  ConfigFile this <> "" ->
  ReadFileInto (config this) (ConfigFile this) = (None, cfg) ->
  (mentions "$" (User (Client cfg)) = false ->
     User (Client (config (load this).2)) = User (Client cfg)) /\
  (mentions "$" (Password (Client cfg)) = false ->
     Password (Client (config (load this).2)) = Password (Client cfg)).
Proof.
  intros Hfile Hread.
  destruct (ReadConfigFile_read this cfg Hfile Hread)
    as (_ & _ & _ & Huser & Hpassword).
  split; intros Hplain.
  - now rewrite Huser, (FindStringSubmatch_no_dollar _ Hplain).
  - now rewrite Hpassword, (FindStringSubmatch_no_dollar _ Hplain).
Qed.

(** X16. [ReadConfigFile] followed by [ApplyCredentials], with no CLI user:
    a config-file user [${NAME}] whose variable is set becomes the user of
    the inspector connection; when the variable is empty or not set, the
    inspector connection keeps the user it had. *)
Theorem ReadConfigFile_then_ApplyCredentials (this : MigrationContext)
    (cfg : ContextConfig) (name : string) (σ : conn_store) (l : loc)
    (c : mysql.ConnectionConfig) :
  ConfigFile this <> "" ->
  ReadFileInto (config this) (ConfigFile this) = (None, cfg) ->
  regexp.one_line name = true ->
  User (Client cfg) = "${" +:+ name +:+ "}" ->
  CliUser this = "" ->
  InspectorConnectionConfig this = Some l ->
  σ !! l = Some c ->
  exists c' : mysql.ConnectionConfig,
    ApplyCredentials (load this).2 σ = Some (<[l := c']> σ) /\
    (Getenv name <> "" -> mysql.User c' = Getenv name) /\
    (Getenv name = "" -> mysql.User c' = mysql.User c).
Proof.
  intros Hfile Hread Hline Hvalue Hcli Hl Hc.
  destruct (ReadConfigFile_read this cfg Hfile Hread)
    as (_ & Hframe & _ & Huser & _).
  rewrite Hvalue, (FindStringSubmatch_literal name Hline) in Huser.
  assert (Hl' : InspectorConnectionConfig (load this).2 = Some l)
    by now rewrite Hframe.
  assert (Hcli' : CliUser (load this).2 = "") by now rewrite Hframe.
  exists (resolved (load this).2 c).
  split; [now apply ApplyCredentials_lookup |].
  unfold resolved, pick. cbn [mysql.User]. rewrite Hcli', Huser.
  change (nonempty "") with false. cbv iota.
  split; intros Henv.
  - apply nonempty_true in Henv. now rewrite Henv.
  - apply nonempty_false in Henv. now rewrite Henv.
Qed.

End ConfigFileAndCredentials.

(** The options section after reading a file that sets the client section
    only. *)
Lemma ReadConfigFile_frame_example :
  Osc (config (ReadConfigFile cnf_from_env env_ghost with_conf).2)
  = Osc zeroContextConfig.
Proof.
  apply (proj2 (ReadConfigFile_frame cnf_from_env env_ghost with_conf)
           (with_Client {| User := "${DB_USER}"; Password := "${DB_PASS}" |}
              (config with_conf))); [discriminate | reflexivity].
Defined.

(** The user [app-${DB_USER}-rw] becomes [ghost], not [app-ghost-rw]. *)
Lemma ReadConfigFile_replaces_whole_value_example :
  User (Client (config (ReadConfigFile cnf_mixed env_ghost with_conf).2))
  = "ghost".
Proof.
  apply (proj1 (ReadConfigFile_replaces_whole_value cnf_mixed env_ghost with_conf
                  (with_Client {| User := "app-${DB_USER}-rw"; Password := "secret" |}
                     (config with_conf))
                  "app-" "DB_USER" "-rw"
                  ltac:(discriminate) eq_refl eq_refl eq_refl eq_refl)).
  reflexivity.
Defined.

(** The password [secret] is kept. *)
Lemma ReadConfigFile_keeps_plain_value_example :
  Password (Client (config (ReadConfigFile cnf_mixed env_ghost with_conf).2))
  = "secret".
Proof.
  apply (proj2 (ReadConfigFile_keeps_plain_value cnf_mixed env_ghost with_conf
                  (with_Client {| User := "app-${DB_USER}-rw"; Password := "secret" |}
                     (config with_conf))
                  ltac:(discriminate) eq_refl)).
  reflexivity.
Defined.

(** With [DB_USER] set the inspector connection gets its value; with an
    empty environment it keeps its user, here the empty one. *)
Lemma ReadConfigFile_then_ApplyCredentials_example :
  (exists c',
     ApplyCredentials (ReadConfigFile cnf_from_env env_ghost with_conf).2 init_store
     = Some (<[1%positive := c']> init_store) /\
     mysql.User c' = "ghost") /\
  (exists c',
     ApplyCredentials (ReadConfigFile cnf_from_env (env_of []) with_conf).2
       init_store
     = Some (<[1%positive := c']> init_store) /\
     mysql.User c' = "").
Proof.
  split.
  - destruct (ReadConfigFile_then_ApplyCredentials cnf_from_env env_ghost
                with_conf
                (with_Client {| User := "${DB_USER}"; Password := "${DB_PASS}" |}
                   (config with_conf))
                "DB_USER" init_store 1%positive mysql.NewConnectionConfig
                ltac:(discriminate) eq_refl eq_refl eq_refl eq_refl eq_refl
                eq_refl) as (c' & Hstore & Hset & _).
    exists c'. split; [exact Hstore |]. apply Hset. discriminate.
  - destruct (ReadConfigFile_then_ApplyCredentials cnf_from_env (env_of [])
                with_conf
                (with_Client {| User := "${DB_USER}"; Password := "${DB_PASS}" |}
                   (config with_conf))
                "DB_USER" init_store 1%positive mysql.NewConnectionConfig
                ltac:(discriminate) eq_refl eq_refl eq_refl eq_refl eq_refl
                eq_refl) as (c' & Hstore & _ & Hempty).
    exists c'. split; [exact Hstore |]. apply Hempty. reflexivity.
Defined.

(** ** Names as identifiers *)

Lemma append_cancel_r (s s' x : string) : s +:+ x = s' +:+ x -> s = s'.
Proof.
  revert s'. induction s as [| c s IH]; intros [| c' s'] Heq.
  - reflexivity.
  - apply (f_equal String.length) in Heq.
    rewrite !length_append in Heq. cbn in Heq. lia.
  - apply (f_equal String.length) in Heq.
    rewrite !length_append in Heq. cbn in Heq. lia.
  - rewrite !append_cons in Heq. injection Heq as -> Heq.
    now rewrite (IH s' Heq).
Qed.

Lemma split_at_dot (a a' r r' : string) :
  mentions "." a = false -> mentions "." a' = false ->
  a +:+ String "." r = a' +:+ String "." r' -> a = a' /\ r = r'.
Proof.
  revert a'. induction a as [| c a IH]; intros [| c' a'] Ha Ha' Heq.
  - injection Heq as ->. now split.
  - rewrite append_cons in Heq. injection Heq as <- _.
    cbn in Ha'. discriminate Ha'.
  - rewrite append_cons in Heq. injection Heq as -> _.
    cbn in Ha. discriminate Ha.
  - rewrite !append_cons in Heq. injection Heq as -> Heq.
    cbn [mentions] in Ha, Ha'.
    apply orb_false_elim in Ha as [_ Ha]. apply orb_false_elim in Ha' as [_ Ha'].
    destruct (IH a' Ha Ha' Heq) as [-> ->]. now split.
Qed.

(** X17. The voluntary lock name identifies the table: two contexts whose
    database names hold no dot and which derive the same lock name have the
    same database name and the same original table name. *)
Theorem GetVoluntaryLockName_identifies (this that : MigrationContext) :
  mentions "." (DatabaseName this) = false ->
  mentions "." (DatabaseName that) = false ->
  GetVoluntaryLockName this = GetVoluntaryLockName that ->
  DatabaseName this = DatabaseName that /\
  OriginalTableName this = OriginalTableName that.
Proof.
  unfold GetVoluntaryLockName. intros Hthis Hthat Hlock.
  change (DatabaseName this +:+ String "." (OriginalTableName this +:+ ".lock")
          = DatabaseName that +:+ String "." (OriginalTableName that +:+ ".lock"))
    in Hlock.
  apply (split_at_dot _ _ _ _ Hthis Hthat) in Hlock as [Hdb Htable].
  split; [exact Hdb | now apply append_cancel_r in Htable].
Qed.

(** Two runs on [shop.orders] that differ in their flags. *)
Lemma GetVoluntaryLockName_identifies_example :
  DatabaseName (set_TestOnReplica true shop_orders) = DatabaseName shop_orders /\
  OriginalTableName (set_TestOnReplica true shop_orders)
  = OriginalTableName shop_orders.
Proof.
  apply (GetVoluntaryLockName_identifies (set_TestOnReplica true shop_orders)
           shop_orders); reflexivity.
Defined.

(** X18. The derived names identify the original table: two contexts with
    the same changelog table name, or with the same ghost table name when
    neither names its ghost table through [Migrate], or with the same old
    table name under the same replica flags, have the same original table
    name. *)
Theorem derived_table_names_identify (this that : MigrationContext) :
  (GetChangelogTableName this = GetChangelogTableName that ->
     OriginalTableName this = OriginalTableName that) /\
  (Migrate this = false -> Migrate that = false ->
     GetGhostTableName this = GetGhostTableName that ->
     OriginalTableName this = OriginalTableName that) /\
  (TestOnReplica this = TestOnReplica that ->
     MigrateOnReplica this = MigrateOnReplica that ->
     GetOldTableName this = GetOldTableName that ->
     OriginalTableName this = OriginalTableName that).
Proof.
  assert (Hwrapped : forall t t' x : string,
             "_" +:+ t +:+ x = "_" +:+ t' +:+ x -> t = t').
  { intros t t' x Heq.
    change (String "_" (t +:+ x) = String "_" (t' +:+ x)) in Heq.
    injection Heq as Heq. now apply append_cancel_r in Heq. }
  unfold GetChangelogTableName, GetGhostTableName, GetOldTableName.
  split; [| split].
  - apply Hwrapped.
  - intros -> ->. apply Hwrapped.
  - intros <- <-.
    destruct (TestOnReplica this), (MigrateOnReplica this); apply Hwrapped.
Qed.

(** Two runs on the table [orders], one of them on a replica for both. *)
Lemma derived_table_names_identify_example :
  OriginalTableName (set_TestOnReplica true orders)
  = OriginalTableName (set_TestOnReplica true shop_orders).
Proof.
  apply (proj2 (proj2 (derived_table_names_identify
                         (set_TestOnReplica true orders)
                         (set_TestOnReplica true shop_orders))));
    reflexivity.
Defined.
